(** * speedy.js code generation: diagnostics, the type mapper and the
      Math built-in object

    A shallow embedding of
    - [packages/compiler/src/code-generation-diagnostic.ts]
      (class [CodeGenerationDiagnostic] and the [diagnostics] catalogue),
    - [packages/compiler/src/code-generation/value/math-object-reference.ts]
      (class [MathObjectReference]) and the type utilities
      [toLLVMType] / [isMaybeObjectType] that accompany it,
    followed by the properties proved about them.

    Conventions.  A JavaScript [throw] is the [Throw] outcome of the
    [result] monad; a value that may be [undefined] is an [option]; the
    mutable LLVM module is threaded explicitly; an object with identity
    (an [llvm.Function]) is a handle into the module that owns it. *)

From Stdlib Require Import ZArith String Ascii List Bool Lia.
From Stdlib Require Import Recdef FunInd.
Import ListNotations.

Local Open Scope list_scope.
Local Open Scope string_scope.
Local Open Scope Z_scope.

Set Implicit Arguments.
Set Warnings "-register-all".

(* ================================================================== *)
(** ** JavaScript values *)

(** Truthiness of a number: every number but zero ([NaN] is not a [Z]). *)
Definition truthy (n : Z) : bool := negb (n =? 0).

(** Truthiness of a string: every string but the empty one. *)
Definition truthy_string (s : string) : bool :=
  match s with
  | EmptyString => false
  | String _ _ => true
  end.

(** Truthiness of a reference that may be [undefined]. *)
Definition defined {A : Type} (x : option A) : bool :=
  match x with
  | Some _ => true
  | None => false
  end.

(* ================================================================== *)
(** ** Node's [util.format]

    The scan of [util.format(f, ...args)] restricted to string arguments:
    ["%s"] consumes the next argument when one is left and stays in the
    text otherwise, ["%%"] is a percent sign, arguments that are left over
    are appended, each after a blank.  Called with the template alone the
    template comes back untouched.  The other directives ([%d], [%j], ...)
    do not occur in the catalogue below and are not interpreted. *)
Module util.

Fixpoint formatWith (f : string) (args : list string) {struct f} : string :=
  match f with
  | EmptyString => String.concat "" (map (fun x => " " ++ x) args)
  | String c tl =>
      if Ascii.eqb c "%" then
        match tl with
        | EmptyString => String c (formatWith tl args)
        | String d rest =>
            if Ascii.eqb d "s" then
              match args with
              | a :: args' => a ++ formatWith rest args'
              | [] => String c (formatWith tl args)
              end
            else if Ascii.eqb d "%" then String "%" (formatWith rest args)
            else String c (formatWith tl args)
        end
      else String c (formatWith tl args)
  end.

Definition format (f : string) (args : list string) : string :=
  match args with
  | [] => f
  | _ :: _ => formatWith f args
  end.

(** How many ["%s"] directives the scan meets in a template. *)
Fixpoint placeholders (f : string) : nat :=
  match f with
  | EmptyString => 0%nat
  | String c tl =>
      match tl with
      | EmptyString => 0%nat
      | String d rest =>
          if Ascii.eqb c "%" then
            if Ascii.eqb d "s" then S (placeholders rest)
            else if Ascii.eqb d "%" then placeholders rest
            else placeholders tl
          else placeholders tl
      end
  end.

End util.

(* ================================================================== *)
(** ** The part of the TypeScript compiler API that the code reads *)
Module ts.

Definition SyntaxKind := Z.

(** [ts.SyntaxKind[kind]], the reverse mapping of the enumeration. *)
Class SyntaxKindNames := { SyntaxKind_name : SyntaxKind -> string }.

Record SourceFile := { fileName : string }.

(** A syntax node: its kind, its full span ([pos] includes the leading
    trivia) and the file it belongs to. *)
Record Node := {
  kind : SyntaxKind;
  pos : Z;
  end_ : Z;
  sourceFile : SourceFile
}.

Definition getFullStart (n : Node) : Z := pos n.
Definition getFullWidth (n : Node) : Z := end_ n - pos n.
Definition getSourceFile (n : Node) : SourceFile := sourceFile n.

Record Identifier := { Identifier_node : Node; text : string }.

Record PropertyAccessExpression := {
  PropertyAccessExpression_node : Node;
  name : Identifier
}.

Record BinaryExpression := {
  BinaryExpression_node : Node;
  operatorToken : Node
}.

(** [PrefixUnaryExpression | PostfixUnaryExpression] *)
Record UnaryExpression := {
  UnaryExpression_node : Node;
  operator : SyntaxKind
}.

(** [symbol.getDeclarations()] hands out the [declarations] field of the
    symbol, which is [undefined] for a symbol that was made without
    declarations (the symbol of the checker's empty object type, say). *)
Record Symbol := {
  Symbol_name : string;
  getDeclarations : option (list Node)
}.

(** [ts.TypeFlags]: the bit masks that the type mapper tests.  The
    enumeration belongs to the TypeScript build the compiler links against
    (a fork that adds [IntLike]); its numbering is a parameter here. *)
Module TypeFlags.
Class t := {
  Any : Z;
  IntLike : Z;
  NumberLike : Z;
  BooleanLike : Z;
  Void : Z;
  Undefined : Z;
  Null : Z;
  Never : Z;
  Object : Z;
  Union : Z
}.
End TypeFlags.

(** A type of the checker: its flags, its symbol if it has one and, for a
    union type, its constituents. *)
Inductive Type_ := {
  flags : Z;
  getSymbol : option Symbol;
  types : list Type_
}.

Record Signature := {
  getReturnType : Type_;
  getParameters : list Symbol;
  getDeclaration : option Node
}.

Fixpoint size (type : Type_) : nat :=
  S (list_sum (map size (types type))).

Section NonNullable.
Context {TF : TypeFlags.t}.

Definition neverType : Type_ :=
  {| flags := TypeFlags.Never; getSymbol := None; types := [] |}.

(** [getUnionTypeFromSortedList] of the checker. *)
Definition getUnionTypeFromSortedList (constituents : list Type_) : Type_ :=
  match constituents with
  | [] => neverType
  | [single] => single
  | _ => {| flags := TypeFlags.Union; getSymbol := None; types := constituents |}
  end.

Definition isNullable (type : Type_) : bool :=
  negb (Z.land (flags type) (Z.lor TypeFlags.Undefined TypeFlags.Null) =? 0).

(** [type.getNonNullableType()] under [strictNullChecks] (without it no
    union keeps an [undefined] constituent): the checker filters the
    constituents of a union that are [undefined] or [null] and rebuilds the
    type from what is left; a type that is not a union is kept, or is
    [never] when it is itself [undefined] or [null]. *)
Definition getNonNullableType (type : Type_) : Type_ :=
  if negb (Z.land (flags type) TypeFlags.Union =? 0) then
    let filtered := filter (fun t => negb (isNullable t)) (types type) in
    if (List.length filtered =? List.length (types type))%nat then type
    else getUnionTypeFromSortedList filtered
  else if isNullable type then neverType else type.

End NonNullable.

Module DiagnosticCategory.
Inductive t := Warning | Error | Message.
End DiagnosticCategory.

Record Diagnostic := {
  Diagnostic_code : Z;
  messageText : string;
  start : Z;
  length : Z;
  category : DiagnosticCategory.t;
  file : SourceFile
}.

End ts.

(* ================================================================== *)
(** ** Diagnostics: [code-generation-diagnostic.ts] *)

(** The fields of a constructed [CodeGenerationDiagnostic]. *)
Record CodeGenerationDiagnostic := {
  node : ts.Node;
  code : Z;
  message : string
}.

(** What a [throw] can carry in the modelled code. *)
Inductive exn :=
| AssertionError (message : string)
| TypeError (message : string)
| Error (message : string)
| Diagnostic (d : CodeGenerationDiagnostic).

Inductive result (A : Type) :=
| Return (a : A)
| Throw (e : exn).

Arguments Return {A} a.
Arguments Throw {A} e.

Definition bind {A B : Type} (c : result A) (k : A -> result B) : result B :=
  match c with
  | Return a => k a
  | Throw e => Throw e
  end.

Notation "x <- c ;; k" := (bind c (fun x => k))
  (at level 61, c at next level, right associativity).
Notation "c ;;; k" := (bind c (fun _ => k))
  (at level 61, right associativity).

(** [assert(value, message)] of Node's [assert] module. *)
Definition assert (value : bool) (message : string) : result unit :=
  if value then Return tt else Throw (AssertionError message).

Record DiagnosticMessage := {
  template : string;
  template_code : Z
}.

Module diagnostics.

Definition BuiltInMethodNotSupported := {|
  template := "The method '%s' of the built in object '%s' is not supported.";
  template_code := 100000 |}.
Definition BuiltInPropertyNotSupported := {|
  template := "The property '%s' of the built in object '%s' is not supported.";
  template_code := 100001 |}.
Definition BuiltInObjectDoesNotSupportElementAccess := {|
  template := "The built in object '%s' does not support element access (%s[index] or $s[index]=value).";
  template_code := 100002 |}.
Definition UnsupportedBuiltInClass := {|
  template := "The class referenced by this identifier is not supported.";
  template_code := 100003 |}.
Definition UnsupportedLiteralType := {|
  template := "The literal type '%s' is not supported.";
  template_code := 100004 |}.
Definition UnsupportedType := {|
  template := "The type '%s' is not supported.";
  template_code := 100005 |}.
Definition UnsupportedIdentifier := {|
  template := "Unsupported type or kind of identifier '%s'.";
  template_code := 100006 |}.
Definition UnsupportedBinaryOperation := {|
  template := "The binary operator %s is not supported for the left and right hand side types '%s' and '%s'.";
  template_code := 100007 |}.
Definition UnsupportedUnaryOperation := {|
  template := "The unary operator %s is not supported for the type '%s'.";
  template_code := 100008 |}.
Definition AnonymousEntryFunctionsUnsupported := {|
  template := "SpeedyJS entry functions need to have a name.";
  template_code := 100009 |}.
Definition ReferenceToNonEntrySpeedyJSFunctionFromJS := {|
  template := "SpeedyJS functions referenced from 'normal' JavaScript code needs to be async (the async modifier is missing on the declaration of '%s').";
  template_code := 100010 |}.
Definition OptionalParametersNotSupportedForEntryFunction := {|
  template := "Optional parameters or variadic parameters are not supported for SpeedyJS entry functions.";
  template_code := 100011 |}.
Definition GenericEntryFunctionNotSuppoorted := {|
  template := "Generic SpeedyJS entry functions are not supported.";
  template_code := 100012 |}.
Definition OverloadedEntryFunctionNotSupported := {|
  template := "SpeedyJS entry function cannot be overloaded.";
  template_code := 100013 |}.
Definition UnsupportedSyntaxKind := {|
  template := "The syntax kind '%s' is not yet supported.";
  template_code := 100014 |}.
Definition UnsupportedProperty := {|
  template := "The kind of property is not yet supported, only object properties are supported.";
  template_code := 1000015 |}.
Definition UnsupportedIndexer := {|
  template := "The kind of indexer is not yet supported";
  template_code := 1000016 |}.
Definition UnsupportedCast := {|
  template := "Casting from '%s' to '%s' is not yet supported";
  template_code := 1000017 |}.
Definition UnsupportedImplicitArrayElementCast := {|
  template := "The array element of type '%s' requires an implicit cast to the array element type '%s'. Implicit casts are not supported. An explicit cast of the element to the array element type is required.";
  template_code := 1000018 |}.
Definition UnsupportedImplicitCastOfBinaryExpressionOperands := {|
  template := "No implicit cast for the binary expressions operands (left: %s, right: %s) exists. An explicit cast of either of the operands to the other's type is required.";
  template_code := 1000019 |}.
Definition UnsupportedImplicitCastOfArgument := {|
  template := "Unsupported implicit cast of the argument with the type '%s' to the expected parameter type '%s'. An explicit cast of the argument to the type '%s' is required.";
  template_code := 1000020 |}.
Definition UnsupportedImplicitCastOfConditionalResult := {|
  template := "Unsupported implicit cast of conditional case with type '%s' to the type '%s' of the whole conditional expression. An explicit cast of the conditional case to the type '%s' is required.";
  template_code := 1000021 |}.
Definition UnsupportedElementAccessExpression := {|
  template := "Unsupported element access expression with indexer of type '%s'. Only element access expressions with an integer index are supported.";
  template_code := 1000022 |}.
Definition UnsupportedImplicitCastOfReturnValue := {|
  template := "Unsupported implicit cast of return value with the type '%s' to function's return type '%s'. An explicit cast of the return value to the expected return type '%s' is required.";
  template_code := 1000023 |}.
Definition UnsupportedImplicitCast := {|
  template := "Unsupported implicit cast of value with the type '%s' to the expected type '%s'. An explicit cast of the value to the type '%s' is required.";
  template_code := 1000024 |}.
Definition UnsupportedGenericFunction := {|
  template := "Generic functions and methods are not yet supported.";
  template_code := 1000025 |}.
Definition UnsupportedStaticProperty := {|
  template := "Static methods and properties are not yet supported.";
  template_code := 1000026 |}.
Definition UnsupportedNestedFunctionDeclaration := {|
  template := "Functions nested inside of other functions that potentially make use of a closure are not yet supported";
  template_code := 1000027 |}.
Definition UnsupportedFunctionDeclaration := {|
  template := "Unsupported function declaration. Only function and method declarations are supported.";
  template_code := 1000028 |}.
Definition UnsupportedVarDeclaration := {|
  template := "Unsupported 'var' declaration of variable. Only variables with block scope ('let' and 'const') are supported.";
  template_code := 1000029 |}.
Definition UnsupportedOverloadedFunctionDeclaration := {|
  template := "Overloaded functions are not yet supported.";
  template_code := 1000030 |}.
Definition UnsupportedGenericClass := {|
  template := "Generic classes are not yet supported.";
  template_code := 1000031 |}.
Definition UnsupportedClassInheritance := {|
  template := "Class inheritance is not yet supported.";
  template_code := 1000032 |}.

End diagnostics.

(** The entries of [diagnostics], in the order of the object literal. *)
Definition catalogue : list DiagnosticMessage := [
  diagnostics.BuiltInMethodNotSupported;
  diagnostics.BuiltInPropertyNotSupported;
  diagnostics.BuiltInObjectDoesNotSupportElementAccess;
  diagnostics.UnsupportedBuiltInClass;
  diagnostics.UnsupportedLiteralType;
  diagnostics.UnsupportedType;
  diagnostics.UnsupportedIdentifier;
  diagnostics.UnsupportedBinaryOperation;
  diagnostics.UnsupportedUnaryOperation;
  diagnostics.AnonymousEntryFunctionsUnsupported;
  diagnostics.ReferenceToNonEntrySpeedyJSFunctionFromJS;
  diagnostics.OptionalParametersNotSupportedForEntryFunction;
  diagnostics.GenericEntryFunctionNotSuppoorted;
  diagnostics.OverloadedEntryFunctionNotSupported;
  diagnostics.UnsupportedSyntaxKind;
  diagnostics.UnsupportedProperty;
  diagnostics.UnsupportedIndexer;
  diagnostics.UnsupportedCast;
  diagnostics.UnsupportedImplicitArrayElementCast;
  diagnostics.UnsupportedImplicitCastOfBinaryExpressionOperands;
  diagnostics.UnsupportedImplicitCastOfArgument;
  diagnostics.UnsupportedImplicitCastOfConditionalResult;
  diagnostics.UnsupportedElementAccessExpression;
  diagnostics.UnsupportedImplicitCastOfReturnValue;
  diagnostics.UnsupportedImplicitCast;
  diagnostics.UnsupportedGenericFunction;
  diagnostics.UnsupportedStaticProperty;
  diagnostics.UnsupportedNestedFunctionDeclaration;
  diagnostics.UnsupportedFunctionDeclaration;
  diagnostics.UnsupportedVarDeclaration;
  diagnostics.UnsupportedOverloadedFunctionDeclaration;
  diagnostics.UnsupportedGenericClass;
  diagnostics.UnsupportedClassInheritance
].

(** The class [CodeGenerationDiagnostic]: its constructor ([new]), its
    method [toDiagnostic] and its static factories.  A node parameter is an
    [option]: the constructor's first assertion is there for the caller
    that passes [undefined]. *)
Module CodeGenerationDiagnostic.

Section Factories.
Context {names : ts.SyntaxKindNames}.

(** [constructor(public node, public code, message)]: [super(message)]
    stores the message, the three assertions follow in this order. *)
Definition new (node : option ts.Node) (code : Z) (message : string)
  : result CodeGenerationDiagnostic :=
  assert (defined node) "Node is not defined" ;;;
  assert (truthy code) "code is not defined" ;;;
  assert (truthy_string message) "message is not defined" ;;;
  match node with
  | Some n => Return {| node := n; code := code; message := message |}
  | None => Throw (AssertionError "Node is not defined")
  end.

Definition toDiagnostic (this : CodeGenerationDiagnostic) : ts.Diagnostic :=
  {| ts.Diagnostic_code := code this;
     ts.messageText := message this;
     ts.start := ts.getFullStart (node this);
     ts.length := ts.getFullWidth (node this);
     ts.category := ts.DiagnosticCategory.Error;
     ts.file := ts.getSourceFile (node this) |}.

Definition createException (node : option ts.Node)
  (diagnostic : DiagnosticMessage) (args : list string)
  : result CodeGenerationDiagnostic :=
  let message := util.format (template diagnostic) args in
  new node (template_code diagnostic) message.

(** Reading a property of a reference that is [undefined] is a
    [TypeError]; the arguments of a call are evaluated before the call. *)
Definition deref {A B : Type} (x : option A) (property : string)
  (k : A -> result B) : result B :=
  match x with
  | Some a => k a
  | None => Throw (TypeError ("Cannot read property '" ++ property ++ "' of undefined"))
  end.

Definition upcast {A : Type} (f : A -> ts.Node) (x : option A) : option ts.Node :=
  option_map f x.

Definition builtInMethodNotSupported
  (propertyAccessExpression : option ts.PropertyAccessExpression)
  (objectName methodName : string) :=
  createException (upcast ts.PropertyAccessExpression_node propertyAccessExpression)
    diagnostics.BuiltInMethodNotSupported [methodName; objectName].

Definition builtInPropertyNotSupported
  (property : option ts.PropertyAccessExpression) (objectName : string) :=
  deref property "name" (fun p =>
  createException (Some (ts.PropertyAccessExpression_node p))
    diagnostics.BuiltInPropertyNotSupported [ts.text (ts.name p); objectName]).

Definition builtInDoesNotSupportElementAccess
  (element : option ts.Node) (objectName : string) :=
  createException element
    diagnostics.BuiltInObjectDoesNotSupportElementAccess [objectName].

Definition unsupportedLiteralType (node : option ts.Node) (typeName : string) :=
  createException node diagnostics.UnsupportedLiteralType [typeName].

Definition unsupportedType (node : option ts.Node) (typeName : string) :=
  createException node diagnostics.UnsupportedType [typeName].

Definition unsupportedIdentifier (identifier : option ts.Identifier) :=
  deref identifier "text" (fun i =>
  createException (Some (ts.Identifier_node i))
    diagnostics.UnsupportedIdentifier [ts.text i]).

Definition unsupportedBinaryOperation
  (binaryExpression : option ts.BinaryExpression) (leftType rightType : string) :=
  deref binaryExpression "operatorToken" (fun b =>
  createException (Some (ts.BinaryExpression_node b))
    diagnostics.UnsupportedBinaryOperation
    [ts.SyntaxKind_name (ts.kind (ts.operatorToken b)); leftType; rightType]).

Definition unsupportedUnaryOperation
  (node : option ts.UnaryExpression) (type : string) :=
  deref node "operator" (fun u =>
  createException (Some (ts.UnaryExpression_node u))
    diagnostics.UnsupportedUnaryOperation
    [ts.SyntaxKind_name (ts.operator u); type]).

Definition anonymousEntryFunctionsNotSupported (fun_ : option ts.Node) :=
  createException fun_ diagnostics.AnonymousEntryFunctionsUnsupported [].

Definition optionalParametersInEntryFunctionNotSupported
  (optionalParameter : option ts.Node) :=
  createException optionalParameter
    diagnostics.OptionalParametersNotSupportedForEntryFunction [].

Definition genericEntryFunctionNotSupported (fun_ : option ts.Node) :=
  createException fun_ diagnostics.GenericEntryFunctionNotSuppoorted [].

Definition unsupportedClassReferencedBy (identifier : option ts.Identifier) :=
  createException (upcast ts.Identifier_node identifier)
    diagnostics.UnsupportedBuiltInClass [].

Definition referenceToNonSpeedyJSEntryFunctionFromJS
  (identifier : option ts.Identifier) (speedyJSFunctionSymbol : ts.Symbol) :=
  createException (upcast ts.Identifier_node identifier)
    diagnostics.ReferenceToNonEntrySpeedyJSFunctionFromJS
    [ts.Symbol_name speedyJSFunctionSymbol].

Definition overloadedEntryFunctionNotSupported (fun_ : option ts.Node) :=
  createException fun_ diagnostics.OverloadedEntryFunctionNotSupported [].

Definition unsupportedSyntaxKind (node : option ts.Node) :=
  deref node "kind" (fun n =>
  createException (Some n)
    diagnostics.UnsupportedSyntaxKind [ts.SyntaxKind_name (ts.kind n)]).

Definition unsupportedProperty
  (propertyExpression : option ts.PropertyAccessExpression) :=
  createException (upcast ts.PropertyAccessExpression_node propertyExpression)
    diagnostics.UnsupportedProperty [].

Definition unsupportedIndexer (node : option ts.Node) :=
  createException node diagnostics.UnsupportedIndexer [].

Definition unsupportedCast (node : option ts.Node) (sourceType targetType : string) :=
  createException node diagnostics.UnsupportedCast [sourceType; targetType].

Definition implicitArrayElementCast (element : option ts.Node)
  (arrayElementType typeOfElementRequiringImplicitCast : string) :=
  createException element diagnostics.UnsupportedImplicitArrayElementCast
    [typeOfElementRequiringImplicitCast; arrayElementType].

Definition unsupportedImplicitCastOfBinaryExpressionOperands
  (binaryExpression : option ts.BinaryExpression)
  (leftOperandType rightOperandType : string) :=
  createException (upcast ts.BinaryExpression_node binaryExpression)
    diagnostics.UnsupportedImplicitCastOfBinaryExpressionOperands
    [leftOperandType; rightOperandType].

Definition unsupportedImplicitCastOfArgument
  (elementNotMatchingArrayElementType : option ts.Node)
  (parameterType argumentType : string) :=
  createException elementNotMatchingArrayElementType
    diagnostics.UnsupportedImplicitCastOfArgument
    [argumentType; parameterType; parameterType].

Definition unsupportedImplicitCastOfConditionalResult
  (conditionalResult : option ts.Node)
  (typeOfConditional typeOfConditionResult : string) :=
  createException conditionalResult
    diagnostics.UnsupportedImplicitCastOfConditionalResult
    [typeOfConditionResult; typeOfConditional; typeOfConditional].

(** [argumentExpressionType || "undefined"]: the default replaces a
    missing argument and an empty string alike. *)
Definition unsupportedElementAccessExpression
  (elementAccessExpression : option ts.Node)
  (argumentExpressionType : option string) :=
  createException elementAccessExpression
    diagnostics.UnsupportedElementAccessExpression
    [match argumentExpressionType with
     | Some s => if truthy_string s then s else "undefined"
     | None => "undefined"
     end].

Definition unsupportedImplicitCastOfReturnValue
  (returnStatement : option ts.Node)
  (declaredReturnType returnStatementExpressionType : string) :=
  createException returnStatement
    diagnostics.UnsupportedImplicitCastOfReturnValue
    [returnStatementExpressionType; declaredReturnType; declaredReturnType].

Definition unsupportedImplicitCast (node : option ts.Node)
  (castTargetType actualValueType : string) :=
  createException node diagnostics.UnsupportedImplicitCast
    [actualValueType; castTargetType; castTargetType].

(** The one factory whose body is [throw createException(...)]. *)
Definition unsupportedFunctionDeclaration (declaration : option ts.Node)
  : result CodeGenerationDiagnostic :=
  d <- createException declaration diagnostics.UnsupportedFunctionDeclaration [] ;;
  Throw (Diagnostic d).

Definition unsupportedGenericFunction (functionDeclaration : option ts.Node) :=
  createException functionDeclaration diagnostics.UnsupportedGenericFunction [].

Definition unsupportedStaticProperties
  (propertyExpression : option ts.PropertyAccessExpression) :=
  createException (upcast ts.PropertyAccessExpression_node propertyExpression)
    diagnostics.UnsupportedStaticProperty [].

Definition unsupportedNestedFunctionDeclaration
  (functionDeclaration : option ts.Node) :=
  createException functionDeclaration
    diagnostics.UnsupportedNestedFunctionDeclaration [].

Definition variableDeclarationList (variableDeclarationList : option ts.Node) :=
  createException variableDeclarationList diagnostics.UnsupportedVarDeclaration [].

Definition unsupportedOverloadedFunctionDeclaration (declaration : option ts.Node) :=
  createException declaration
    diagnostics.UnsupportedOverloadedFunctionDeclaration [].

Definition unsupportedGenericClass (classDeclaration : option ts.Node) :=
  createException classDeclaration diagnostics.UnsupportedGenericClass [].

Definition unsupportedClassInheritance (classDeclaration : option ts.Node) :=
  createException classDeclaration diagnostics.UnsupportedClassInheritance [].

End Factories.

End CodeGenerationDiagnostic.

(* ================================================================== *)
(** ** The part of [llvm-node] that the code calls

    Types are values.  A module owns its function declarations in
    creation order; an [llvm.Function] object is the position of its
    declaration in the module it was created in, so that two references
    are the same object exactly when the positions agree. *)
Module llvm.

Inductive Type_ :=
| Int1Ty
| Int8Ty
| Int32Ty
| DoubleTy
| VoidTy
| PointerTy (pointee : Type_)
| StructTy (name : string) (elements : list Type_)
| FunctionTy (result : Type_) (params : list Type_) (isVarArg : bool).

Definition getInt1Ty : Type_ := Int1Ty.
Definition getInt32Ty : Type_ := Int32Ty.
Definition getDoubleTy : Type_ := DoubleTy.
Definition getVoidTy : Type_ := VoidTy.
Definition getInt8PtrTy : Type_ := PointerTy Int8Ty.
Definition getPointerTo (type : Type_) : Type_ := PointerTy type.

Module FunctionType.
Definition get (result : Type_) (params : list Type_) (isVarArg : bool) : Type_ :=
  FunctionTy result params isVarArg.
End FunctionType.

Module LinkageTypes.
Inductive t := ExternalLinkage | InternalLinkage | PrivateLinkage.
End LinkageTypes.

Record Declaration := {
  name : string;
  type : Type_;
  linkage : LinkageTypes.t
}.

Definition Function := nat.

Record Module_ := { functions : list Declaration }.

Fixpoint lookup (name0 : string) (declarations : list Declaration) (position : nat)
  : option Function :=
  match declarations with
  | [] => None
  | d :: rest =>
      if String.eqb (name d) name0 then Some position
      else lookup name0 rest (S position)
  end.

(** [module.getFunction(name)]: the function of that name, or [undefined]. *)
Definition getFunction (module : Module_) (name0 : string) : option Function :=
  lookup name0 (functions module) 0%nat.

(** [llvm.Function.create(type, linkage, name, module)] adds a declaration
    to the module and returns it.  (LLVM renames a function created under
    a name that is taken; the callers below create one only after
    [getFunction] found none.) *)
Definition Function_create (type0 : Type_) (linkage0 : LinkageTypes.t)
  (name0 : string) (module : Module_) : Function * Module_ :=
  (List.length (functions module),
   {| functions := functions module ++
        [{| name := name0; type := type0; linkage := linkage0 |}] |}).

(** The declaration behind a function object. *)
Definition declaration (module : Module_) (fn : Function) : option Declaration :=
  nth_error (functions module) fn.

(** How many declarations of the module carry the name. *)
Definition count (module : Module_) (name0 : string) : nat :=
  List.length (filter (fun d => String.eqb (name d) name0) (functions module)).

End llvm.

(* ================================================================== *)
(** ** The code generation context and the collaborators of the code

    [resolved-function.ts], [resolved-function-reference.ts], the class
    references and the compilation context are other files of the
    compiler.  Their data is described here as far as the code below
    touches it; their operations are parameters. *)

Record ResolvedFunctionParameter := {
  parameterName : string;
  parameterType : ts.Type_
}.

(** Modelled from the spec: the descriptor [ResolvedFunction] of
    resolved-function.ts, which is not among the sources: "name, ordered
    parameters (each: name, source type), return type, optional declaring
    object type, instanceMethod flag, optional originating declaration
    node". *)
Record ResolvedFunction := {
  functionName : string;
  typeParameters : list ts.Type_;
  parameters : list ResolvedFunctionParameter;
  returnType : ts.Type_;
  declaration : option ts.Node;
  classType : option ts.Type_;
  instanceMethod : bool
}.

(** [resolvedFunction.instanceMethod = value] *)
Definition set_instanceMethod (resolvedFunction : ResolvedFunction) (value : bool)
  : ResolvedFunction :=
  {| functionName := functionName resolvedFunction;
     typeParameters := typeParameters resolvedFunction;
     parameters := parameters resolvedFunction;
     returnType := returnType resolvedFunction;
     declaration := declaration resolvedFunction;
     classType := classType resolvedFunction;
     instanceMethod := value |}.

(** Modelled from the spec: [ResolvedFunctionReference] of
    resolved-function-reference.ts, which is not among the sources: "a
    ResolvedFunction bound to a concrete target function handle";
    [create(targetHandle, resolvedFunction)] wraps "an existing/declared
    target function". *)
Record ResolvedFunctionReference := {
  fn : llvm.Function;
  resolvedFunction : ResolvedFunction
}.

Module ResolvedFunctionReference.
Definition create (fn0 : llvm.Function) (resolvedFunction0 : ResolvedFunction)
  : ResolvedFunctionReference :=
  {| fn := fn0; resolvedFunction := resolvedFunction0 |}.
End ResolvedFunctionReference.

(** The object literal passed to [createRuntimeFunction]. *)
Record FunctionAttributes := {
  readnone : bool;
  noUnwind : bool
}.

Class Collaborators := {
  ClassReference : Type;
  CompilationContext : Type
}.

Record TypeChecker := { typeToString : ts.Type_ -> string }.

Record CodeGenerationContext {C : Collaborators} := {
  module : llvm.Module_;
  compilationContext : CompilationContext;
  typeChecker : TypeChecker;
  resolveClass : ts.Type_ -> option ClassReference
}.

(** [context.module] after a callee has declared functions in it. *)
Definition with_module {C : Collaborators} (context : CodeGenerationContext)
  (module0 : llvm.Module_) : CodeGenerationContext :=
  {| module := module0;
     compilationContext := compilationContext context;
     typeChecker := typeChecker context;
     resolveClass := resolveClass context |}.

Class Operations {C : Collaborators} := {
  getLLVMType : ClassReference -> ts.Type_ -> CodeGenerationContext -> llvm.Type_;
  createResolvedParameter : string -> ts.Type_ -> ResolvedFunctionParameter;
  createResolvedFunction :
    string -> list ts.Type_ -> list ResolvedFunctionParameter -> ts.Type_ ->
    option ts.Node -> option ts.Type_ -> ResolvedFunction;
  createResolvedFunctionFromSignature :
    ts.Signature -> CompilationContext -> ts.Type_ -> ResolvedFunction;
  createRuntimeFunction :
    ResolvedFunction -> CodeGenerationContext -> FunctionAttributes ->
    ResolvedFunctionReference * llvm.Module_
}.

(** Modelled from the spec: the class [CodeGenerationError] that
    math-object-reference.ts imports from code-generation-error.ts, a file
    that is not among the sources.  The spec has a member that is not in
    the table fail "with BuiltInMethodNotSupported ... carrying the
    built-in's declared name and the offending member name"; the factory is
    taken to be the one of that name and those parameters in
    code-generation-diagnostic.ts. *)
Module CodeGenerationError.
Definition builtInMethodNotSupported
  (propertyAccessExpression : option ts.PropertyAccessExpression)
  (objectName methodName : string) : result CodeGenerationDiagnostic :=
  CodeGenerationDiagnostic.builtInMethodNotSupported
    propertyAccessExpression objectName methodName.
End CodeGenerationError.

(* ================================================================== *)
(** ** The type mapper *)

Section TypeMapper.
Context {TF : ts.TypeFlags.t} {C : Collaborators} {O : Operations}.

(** [if (type.flags & mask)] *)
Definition hasFlag (type : ts.Type_) (mask : Z) : bool :=
  truthy (Z.land (ts.flags type) mask).

Definition isMaybeObjectType (type : ts.Type_) : bool :=
  if hasFlag type ts.TypeFlags.Union then
    (List.length (ts.types type) =? 2)%nat &&
    existsb (fun t => hasFlag t ts.TypeFlags.Undefined) (ts.types type) &&
    existsb (fun t => hasFlag t ts.TypeFlags.Object) (ts.types type)
  else false.

(** The object rule: [if (type.flags & Object) { const classReference =
    context.resolveClass(type); if (classReference) ... }] returns for the
    class reference found here and falls through without one. *)
Definition objectClassReference (type : ts.Type_) (context : CodeGenerationContext)
  : option ClassReference :=
  if hasFlag type ts.TypeFlags.Object then resolveClass context type else None.

(** The recursion is on [type.getNonNullableType()], which for a
    maybe-object type is one of its two constituents, or [never].  The
    [match] on the outcome of [unsupportedType] is the [throw] of the value
    that the factory returns.  [type.getSymbol().getDeclarations().length]
    reads the length of what [getDeclarations()] returned: a type error
    when that is [undefined]. *)
Function toLLVMType (type : ts.Type_) (context : CodeGenerationContext)
  {measure ts.size type} : result llvm.Type_ :=
  if hasFlag type ts.TypeFlags.IntLike then Return llvm.getInt32Ty
  else if hasFlag type ts.TypeFlags.NumberLike then Return llvm.getDoubleTy
  else if hasFlag type ts.TypeFlags.BooleanLike then Return llvm.getInt1Ty
  else if hasFlag type ts.TypeFlags.Any then
    Throw (Error "Any type not supported, annotate the type")
  else if hasFlag type ts.TypeFlags.Void then Return llvm.getVoidTy
  else if hasFlag type ts.TypeFlags.Undefined then Return llvm.getInt8PtrTy
  else
    match objectClassReference type context with
    | Some classReference =>
        Return (llvm.getPointerTo (getLLVMType classReference type context))
    | None =>
        if isMaybeObjectType type then
          toLLVMType (ts.getNonNullableType type) context
        else
          match ts.getSymbol type with
          | Some symbol =>
              match ts.getDeclarations symbol with
              | None =>
                  Throw (TypeError "Cannot read property 'length' of undefined")
              | Some (first :: _) =>
                  match CodeGenerationDiagnostic.unsupportedType (Some first)
                          (typeToString (typeChecker context) type) with
                  | Return d => Throw (Diagnostic d)
                  | Throw e => Throw e
                  end
              | Some [] =>
                  Throw (Error ("Unsupported type " ++
                                typeToString (typeChecker context) type))
              end
          | None =>
              Throw (Error ("Unsupported type " ++
                            typeToString (typeChecker context) type))
          end
    end.
Proof.
  intros. match goal with maybe : isMaybeObjectType _ = true |- _ =>
    revert maybe end.
  match goal with |- isMaybeObjectType ?t = true -> _ =>
    generalize t; clear; intros type maybe end.
  assert (nullable : forall t, hasFlag t ts.TypeFlags.Undefined = true ->
                               ts.isNullable t = true).
  { unfold hasFlag, truthy, ts.isNullable. intros t H.
    apply negb_true_iff, Z.eqb_neq in H. apply negb_true_iff, Z.eqb_neq.
    rewrite Z.land_lor_distr_r, Z.lor_eq_0_iff. tauto. }
  assert (positive : forall t, (0 < ts.size t)%nat) by (destruct t; simpl; lia).
  revert maybe.
  unfold isMaybeObjectType, ts.getNonNullableType, hasFlag, truthy.
  destruct (negb (Z.land (ts.flags type) ts.TypeFlags.Union =? 0)); [|discriminate].
  destruct type as [fl sy tys]; simpl.
  destruct tys as [|a [|b [|c tys]]]; simpl; try discriminate.
  intros H. apply andb_true_iff in H as [H _].
  pose proof (positive a). pose proof (positive b).
  destruct (ts.isNullable a) eqn:Na, (ts.isNullable b) eqn:Nb; simpl; try lia.
  exfalso. apply orb_true_iff in H as [H|H].
  - apply nullable in H. congruence.
  - rewrite orb_false_r in H. apply nullable in H. congruence.
Defined.

End TypeMapper.

(* ================================================================== *)
(** ** The Math built-in object: [math-object-reference.ts] *)

(** [MathObjectReference extends BuiltInObjectReference]: of the fields
    set by [super(pointer, mathType, mathClass)] the code below reads
    [this.type]. *)
Record MathObjectReference := { type : ts.Type_ }.

Module MathObjectReference.

Definition typeName (this : MathObjectReference) : string := "Math".

Section Methods.
Context {C : Collaborators} {O : Operations}.

(** [private static createPowFunction(numberType, mathType, context)];
    the second component is [context.module] after the call. *)
Definition createPowFunction (numberType : ts.Type_) (mathType : ts.Type_)
  (context : CodeGenerationContext) : ResolvedFunctionReference * llvm.Module_ :=
  let (fn, module') :=
    match llvm.getFunction (module context) "llvm.pow.f64" with
    | Some fn => (fn, module context)
    | None =>
        let doubleTy := llvm.getDoubleTy in
        llvm.Function_create
          (llvm.FunctionType.get doubleTy [doubleTy; doubleTy] false)
          llvm.LinkageTypes.ExternalLinkage "llvm.pow.f64" (module context)
    end in
  let parameters := [createResolvedParameter "value" numberType;
                     createResolvedParameter "exp" numberType] in
  let resolvedFunction :=
    createResolvedFunction "pow" [] parameters numberType None (Some mathType) in
  let resolvedFunction := set_instanceMethod resolvedFunction false in
  (ResolvedFunctionReference.create fn resolvedFunction, module').

(** [private createSqrtFunction(signature, context)] *)
Definition createSqrtFunction (this : MathObjectReference)
  (signature : ts.Signature) (context : CodeGenerationContext)
  : ResolvedFunctionReference * llvm.Module_ :=
  let (fn, module') :=
    match llvm.getFunction (module context) "llvm.sqrt.f64" with
    | Some fn => (fn, module context)
    | None =>
        let doubleTy := llvm.getDoubleTy in
        llvm.Function_create
          (llvm.FunctionType.get doubleTy [doubleTy] false)
          llvm.LinkageTypes.ExternalLinkage "llvm.sqrt.f64" (module context)
    end in
  let resolvedFunction :=
    createResolvedFunctionFromSignature signature (compilationContext context)
      (type this) in
  let resolvedFunction := set_instanceMethod resolvedFunction false in
  (ResolvedFunctionReference.create fn resolvedFunction, module').

(** [protected createFunctionFor(symbol, signatures,
    propertyAccessExpression, context)].  [signatures[0]] is read after the
    assertion, where the list has one element. *)
Definition createFunctionFor (this : MathObjectReference) (symbol : ts.Symbol)
  (signatures : list ts.Signature)
  (propertyAccessExpression : ts.PropertyAccessExpression)
  (context : CodeGenerationContext)
  : result (ResolvedFunctionReference * llvm.Module_) :=
  assert (List.length signatures =? 1)%nat "Math functions have not to be overloaded" ;;;
  match signatures with
  | [] => Throw (TypeError "Cannot read property 'getReturnType' of undefined")
  | signature0 :: _ =>
      let name := ts.Symbol_name symbol in
      if String.eqb name "log" || String.eqb name "sin" || String.eqb name "cos" then
        let resolvedFunction :=
          createResolvedFunctionFromSignature signature0
            (compilationContext context) (type this) in
        let resolvedFunction := set_instanceMethod resolvedFunction false in
        Return (createRuntimeFunction resolvedFunction context
                  {| readnone := true; noUnwind := true |})
      else if String.eqb name "pow" then
        Return (createPowFunction (ts.getReturnType signature0) (type this) context)
      else if String.eqb name "sqrt" then
        Return (createSqrtFunction this signature0 context)
      else
        d <- CodeGenerationError.builtInMethodNotSupported
               (Some propertyAccessExpression) "Math" name ;;
        Throw (Diagnostic d)
  end.

End Methods.

End MathObjectReference.

(* ================================================================== *)
(** ** The factories as one family

    One constructor per static factory of [CodeGenerationDiagnostic], with
    the arguments of a call; [call] runs the factory and [anchor] is the
    node that the call passes. *)
Module Factory.

Inductive t :=
| builtInMethodNotSupported
    (propertyAccessExpression : option ts.PropertyAccessExpression)
    (objectName methodName : string)
| builtInPropertyNotSupported
    (property : option ts.PropertyAccessExpression) (objectName : string)
| builtInDoesNotSupportElementAccess (element : option ts.Node) (objectName : string)
| unsupportedLiteralType (node : option ts.Node) (typeName : string)
| unsupportedType (node : option ts.Node) (typeName : string)
| unsupportedIdentifier (identifier : option ts.Identifier)
| unsupportedBinaryOperation
    (binaryExpression : option ts.BinaryExpression) (leftType rightType : string)
| unsupportedUnaryOperation (node : option ts.UnaryExpression) (type : string)
| anonymousEntryFunctionsNotSupported (fun_ : option ts.Node)
| optionalParametersInEntryFunctionNotSupported (optionalParameter : option ts.Node)
| genericEntryFunctionNotSupported (fun_ : option ts.Node)
| unsupportedClassReferencedBy (identifier : option ts.Identifier)
| referenceToNonSpeedyJSEntryFunctionFromJS
    (identifier : option ts.Identifier) (speedyJSFunctionSymbol : ts.Symbol)
| overloadedEntryFunctionNotSupported (fun_ : option ts.Node)
| unsupportedSyntaxKind (node : option ts.Node)
| unsupportedProperty (propertyExpression : option ts.PropertyAccessExpression)
| unsupportedIndexer (node : option ts.Node)
| unsupportedCast (node : option ts.Node) (sourceType targetType : string)
| implicitArrayElementCast (element : option ts.Node)
    (arrayElementType typeOfElementRequiringImplicitCast : string)
| unsupportedImplicitCastOfBinaryExpressionOperands
    (binaryExpression : option ts.BinaryExpression)
    (leftOperandType rightOperandType : string)
| unsupportedImplicitCastOfArgument (element : option ts.Node)
    (parameterType argumentType : string)
| unsupportedImplicitCastOfConditionalResult (conditionalResult : option ts.Node)
    (typeOfConditional typeOfConditionResult : string)
| unsupportedElementAccessExpression (elementAccessExpression : option ts.Node)
    (argumentExpressionType : option string)
| unsupportedImplicitCastOfReturnValue (returnStatement : option ts.Node)
    (declaredReturnType returnStatementExpressionType : string)
| unsupportedImplicitCast (node : option ts.Node)
    (castTargetType actualValueType : string)
| unsupportedFunctionDeclaration (declaration : option ts.Node)
| unsupportedGenericFunction (functionDeclaration : option ts.Node)
| unsupportedStaticProperties
    (propertyExpression : option ts.PropertyAccessExpression)
| unsupportedNestedFunctionDeclaration (functionDeclaration : option ts.Node)
| variableDeclarationList (variableDeclarationList : option ts.Node)
| unsupportedOverloadedFunctionDeclaration (declaration : option ts.Node)
| unsupportedGenericClass (classDeclaration : option ts.Node)
| unsupportedClassInheritance (classDeclaration : option ts.Node).

Definition call {names : ts.SyntaxKindNames} (c : t)
  : result CodeGenerationDiagnostic :=
  match c with
  | builtInMethodNotSupported p o m =>
      CodeGenerationDiagnostic.builtInMethodNotSupported p o m
  | builtInPropertyNotSupported p o =>
      CodeGenerationDiagnostic.builtInPropertyNotSupported p o
  | builtInDoesNotSupportElementAccess e o =>
      CodeGenerationDiagnostic.builtInDoesNotSupportElementAccess e o
  | unsupportedLiteralType n s => CodeGenerationDiagnostic.unsupportedLiteralType n s
  | unsupportedType n s => CodeGenerationDiagnostic.unsupportedType n s
  | unsupportedIdentifier i => CodeGenerationDiagnostic.unsupportedIdentifier i
  | unsupportedBinaryOperation b l r =>
      CodeGenerationDiagnostic.unsupportedBinaryOperation b l r
  | unsupportedUnaryOperation u s =>
      CodeGenerationDiagnostic.unsupportedUnaryOperation u s
  | anonymousEntryFunctionsNotSupported n =>
      CodeGenerationDiagnostic.anonymousEntryFunctionsNotSupported n
  | optionalParametersInEntryFunctionNotSupported n =>
      CodeGenerationDiagnostic.optionalParametersInEntryFunctionNotSupported n
  | genericEntryFunctionNotSupported n =>
      CodeGenerationDiagnostic.genericEntryFunctionNotSupported n
  | unsupportedClassReferencedBy i =>
      CodeGenerationDiagnostic.unsupportedClassReferencedBy i
  | referenceToNonSpeedyJSEntryFunctionFromJS i s =>
      CodeGenerationDiagnostic.referenceToNonSpeedyJSEntryFunctionFromJS i s
  | overloadedEntryFunctionNotSupported n =>
      CodeGenerationDiagnostic.overloadedEntryFunctionNotSupported n
  | unsupportedSyntaxKind n => CodeGenerationDiagnostic.unsupportedSyntaxKind n
  | unsupportedProperty p => CodeGenerationDiagnostic.unsupportedProperty p
  | unsupportedIndexer n => CodeGenerationDiagnostic.unsupportedIndexer n
  | unsupportedCast n s u => CodeGenerationDiagnostic.unsupportedCast n s u
  | implicitArrayElementCast n a e =>
      CodeGenerationDiagnostic.implicitArrayElementCast n a e
  | unsupportedImplicitCastOfBinaryExpressionOperands b l r =>
      CodeGenerationDiagnostic.unsupportedImplicitCastOfBinaryExpressionOperands b l r
  | unsupportedImplicitCastOfArgument n p a =>
      CodeGenerationDiagnostic.unsupportedImplicitCastOfArgument n p a
  | unsupportedImplicitCastOfConditionalResult n c r =>
      CodeGenerationDiagnostic.unsupportedImplicitCastOfConditionalResult n c r
  | unsupportedElementAccessExpression n a =>
      CodeGenerationDiagnostic.unsupportedElementAccessExpression n a
  | unsupportedImplicitCastOfReturnValue n d r =>
      CodeGenerationDiagnostic.unsupportedImplicitCastOfReturnValue n d r
  | unsupportedImplicitCast n c a =>
      CodeGenerationDiagnostic.unsupportedImplicitCast n c a
  | unsupportedFunctionDeclaration n =>
      CodeGenerationDiagnostic.unsupportedFunctionDeclaration n
  | unsupportedGenericFunction n =>
      CodeGenerationDiagnostic.unsupportedGenericFunction n
  | unsupportedStaticProperties p =>
      CodeGenerationDiagnostic.unsupportedStaticProperties p
  | unsupportedNestedFunctionDeclaration n =>
      CodeGenerationDiagnostic.unsupportedNestedFunctionDeclaration n
  | variableDeclarationList n => CodeGenerationDiagnostic.variableDeclarationList n
  | unsupportedOverloadedFunctionDeclaration n =>
      CodeGenerationDiagnostic.unsupportedOverloadedFunctionDeclaration n
  | unsupportedGenericClass n => CodeGenerationDiagnostic.unsupportedGenericClass n
  | unsupportedClassInheritance n =>
      CodeGenerationDiagnostic.unsupportedClassInheritance n
  end.

Definition anchor (c : t) : option ts.Node :=
  match c with
  | builtInMethodNotSupported p _ _ | builtInPropertyNotSupported p _
  | unsupportedProperty p | unsupportedStaticProperties p =>
      option_map ts.PropertyAccessExpression_node p
  | unsupportedIdentifier i | unsupportedClassReferencedBy i
  | referenceToNonSpeedyJSEntryFunctionFromJS i _ =>
      option_map ts.Identifier_node i
  | unsupportedBinaryOperation b _ _
  | unsupportedImplicitCastOfBinaryExpressionOperands b _ _ =>
      option_map ts.BinaryExpression_node b
  | unsupportedUnaryOperation u _ => option_map ts.UnaryExpression_node u
  | builtInDoesNotSupportElementAccess n _ | unsupportedLiteralType n _
  | unsupportedType n _ | anonymousEntryFunctionsNotSupported n
  | optionalParametersInEntryFunctionNotSupported n
  | genericEntryFunctionNotSupported n | overloadedEntryFunctionNotSupported n
  | unsupportedSyntaxKind n | unsupportedIndexer n | unsupportedCast n _ _
  | implicitArrayElementCast n _ _ | unsupportedImplicitCastOfArgument n _ _
  | unsupportedImplicitCastOfConditionalResult n _ _
  | unsupportedElementAccessExpression n _
  | unsupportedImplicitCastOfReturnValue n _ _ | unsupportedImplicitCast n _ _
  | unsupportedFunctionDeclaration n | unsupportedGenericFunction n
  | unsupportedNestedFunctionDeclaration n | variableDeclarationList n
  | unsupportedOverloadedFunctionDeclaration n | unsupportedGenericClass n
  | unsupportedClassInheritance n => n
  end.

End Factory.

(* ================================================================== *)
(** ** Sample inputs

    A numbering of the flag masks with disjoint bits, collaborators that
    can be run, and a few nodes, types and modules on which the
    definitions above are evaluated. *)
Module Sample.

Definition flags : ts.TypeFlags.t := {|
  ts.TypeFlags.Any := 1;
  ts.TypeFlags.IntLike := 33554432;
  ts.TypeFlags.NumberLike := 84;
  ts.TypeFlags.BooleanLike := 136;
  ts.TypeFlags.Void := 1024;
  ts.TypeFlags.Undefined := 2048;
  ts.TypeFlags.Null := 4096;
  ts.TypeFlags.Never := 8192;
  ts.TypeFlags.Object := 32768;
  ts.TypeFlags.Union := 65536 |}.

Definition names : ts.SyntaxKindNames :=
  {| ts.SyntaxKind_name := fun kind =>
       if kind =? 36 then "PlusToken" else "Unknown" |}.

(** A class reference is the name of the struct generated for the class. *)
Definition collaborators : Collaborators :=
  {| ClassReference := string; CompilationContext := unit |}.

Definition declare (name : string) (type : llvm.Type_) (module : llvm.Module_)
  : llvm.Function * llvm.Module_ :=
  match llvm.getFunction module name with
  | Some fn => (fn, module)
  | None => llvm.Function_create type llvm.LinkageTypes.ExternalLinkage name module
  end.

Definition operations : @Operations collaborators := {|
  getLLVMType := fun (classReference : @ClassReference collaborators) _ _ =>
    llvm.StructTy classReference [llvm.Int32Ty];
  createResolvedParameter := fun name type =>
    {| parameterName := name; parameterType := type |};
  createResolvedFunction := fun name typeParameters parameters returnType
                                declaration classType =>
    {| functionName := name; typeParameters := typeParameters;
       parameters := parameters; returnType := returnType;
       declaration := declaration; classType := classType;
       instanceMethod := defined classType |};
  createResolvedFunctionFromSignature := fun signature _ classType =>
    {| functionName := "member"; typeParameters := [];
       parameters := map (fun s => {| parameterName := ts.Symbol_name s;
                                      parameterType := ts.getReturnType signature |})
                         (ts.getParameters signature);
       returnType := ts.getReturnType signature;
       declaration := ts.getDeclaration signature;
       classType := Some classType;
       instanceMethod := true |};
  createRuntimeFunction := fun resolvedFunction context attributes =>
    let (fn, module') :=
      declare ("Math_" ++ functionName resolvedFunction)
        (llvm.FunctionTy llvm.DoubleTy [llvm.DoubleTy] false) (module context) in
    (ResolvedFunctionReference.create fn resolvedFunction, module')
|}.

Definition sourceFile : ts.SourceFile := {| ts.fileName := "math.ts" |}.

Definition node : ts.Node :=
  {| ts.kind := 179; ts.pos := 10; ts.end_ := 25; ts.sourceFile := sourceFile |}.

Definition propertyAccess : ts.PropertyAccessExpression :=
  {| ts.PropertyAccessExpression_node := node;
     ts.name := {| ts.Identifier_node := node; ts.text := "random" |} |}.

Definition simple (flags0 : Z) : ts.Type_ :=
  {| ts.flags := flags0; ts.getSymbol := None; ts.types := [] |}.

Definition anyType : ts.Type_ := simple 1.
Definition numberType : ts.Type_ := simple 4.
Definition undefinedType : ts.Type_ := simple 2048.
Definition stringType : ts.Type_ := simple 2.

Definition pointClass : ts.Symbol :=
  {| ts.Symbol_name := "Point"; ts.getDeclarations := Some [node] |}.

Definition pointType : ts.Type_ :=
  {| ts.flags := 32768; ts.getSymbol := Some pointClass; ts.types := [] |}.

Definition shapeType : ts.Type_ :=
  {| ts.flags := 32768;
     ts.getSymbol := Some {| ts.Symbol_name := "Shape"; ts.getDeclarations := Some [node] |};
     ts.types := [] |}.

Definition mathType : ts.Type_ :=
  {| ts.flags := 32768;
     ts.getSymbol := Some {| ts.Symbol_name := "Math"; ts.getDeclarations := Some [] |};
     ts.types := [] |}.

Definition maybePoint : ts.Type_ :=
  {| ts.flags := 65536; ts.getSymbol := None; ts.types := [pointType; undefinedType] |}.

(** The empty object type [{}]: its symbol has no declarations field. *)
Definition emptyObjectType : ts.Type_ :=
  {| ts.flags := 32768;
     ts.getSymbol := Some {| ts.Symbol_name := "__type"; ts.getDeclarations := None |};
     ts.types := [] |}.

(** [Point | null]: a union without an undefined constituent. *)
Definition pointOrNull : ts.Type_ :=
  {| ts.flags := 65536; ts.getSymbol := None; ts.types := [pointType; simple 4096] |}.

Definition emptyModule : llvm.Module_ := {| llvm.functions := [] |}.

(** A context whose class table knows the class [Point] only. *)
Definition context : @CodeGenerationContext collaborators :=
  {| module := emptyModule;
     compilationContext := tt : @CompilationContext collaborators;
     typeChecker := {| typeToString := fun type =>
       match ts.getSymbol type with
       | Some symbol => ts.Symbol_name symbol
       | None => if ts.flags type =? 1 then "any" else "string"
       end |};
     resolveClass := fun type =>
       match ts.getSymbol type with
       | Some symbol =>
           if String.eqb (ts.Symbol_name symbol) "Point"
           then Some ("class.Point" : @ClassReference collaborators) else None
       | None => None
       end |}.

Definition math : MathObjectReference := {| type := mathType |}.

Definition unary : ts.Signature :=
  {| ts.getReturnType := numberType;
     ts.getParameters := [{| ts.Symbol_name := "x"; ts.getDeclarations := Some [] |}];
     ts.getDeclaration := None |}.

Definition member (name : string) : ts.Symbol :=
  {| ts.Symbol_name := name; ts.getDeclarations := Some [] |}.

End Sample.

(* ================================================================== *)
(** * Properties *)

(** ** The diagnostics *)
Section DiagnosticProperties.
Context {names : ts.SyntaxKindNames}.

Lemma truthy_true_iff (n : Z) : truthy n = true <-> n <> 0.
Proof.
  unfold truthy. rewrite negb_true_iff, Z.eqb_neq. tauto.
Qed.

Lemma truthy_string_true_iff (s : string) : truthy_string s = true <-> s <> "".
Proof.
  destruct s; simpl; split; intro H; try reflexivity; try discriminate.
  now contradiction H.
Qed.

(** The constructor, case by case. *)
Lemma new_spec (node0 : option ts.Node) (code0 : Z) (message0 : string) :
  CodeGenerationDiagnostic.new node0 code0 message0 =
  match node0 with
  | None => Throw (AssertionError "Node is not defined")
  | Some n =>
      if code0 =? 0 then Throw (AssertionError "code is not defined")
      else match message0 with
           | EmptyString => Throw (AssertionError "message is not defined")
           | String _ _ =>
               Return {| node := n; code := code0; message := message0 |}
           end
  end.
Proof.
  unfold CodeGenerationDiagnostic.new, assert, truthy.
  destruct node0 as [n|]; simpl; [|reflexivity].
  destruct (code0 =? 0); simpl; [reflexivity|].
  destruct message0; reflexivity.
Qed.

Lemma new_Return (node0 : option ts.Node) (code0 : Z) (message0 : string)
  (d : CodeGenerationDiagnostic) :
  CodeGenerationDiagnostic.new node0 code0 message0 = Return d ->
  node0 = Some (node d) /\ code0 = code d /\ message0 = message d /\
  code0 <> 0 /\ message0 <> "".
Proof.
  rewrite new_spec. destruct node0 as [n|]; [|discriminate].
  destruct (code0 =? 0) eqn:Hc; [discriminate|].
  destruct message0 as [|c s]; [discriminate|].
  intros [= <-]. simpl. apply Z.eqb_neq in Hc. repeat split; trivial.
  discriminate.
Qed.

Lemma new_Throw (node0 : option ts.Node) (code0 : Z) (message0 : string) :
  node0 = None \/ code0 = 0 \/ message0 = "" ->
  exists text,
    CodeGenerationDiagnostic.new node0 code0 message0 = Throw (AssertionError text).
Proof.
  rewrite new_spec. intros H.
  destruct node0 as [n|]; [|eauto].
  destruct (code0 =? 0) eqn:Hc; [eauto|].
  destruct message0 as [|c s]; [eauto|].
  apply Z.eqb_neq in Hc.
  destruct H as [H|[H|H]]; [discriminate | contradiction | discriminate].
Qed.

(** A factory that is given a node returns (or, for the one that throws,
    raises) a diagnostic anchored there: the codes of the catalogue are
    not zero and its templates do not format to the empty string. *)
Lemma factory_outcome (c : Factory.t) (n : ts.Node) :
  Factory.anchor c = Some n ->
  exists d, node d = n /\ code d <> 0 /\ message d <> "" /\
    (Factory.call c = Return d \/
     (Factory.call c = Throw (Diagnostic d) /\
      exists declaration, c = Factory.unsupportedFunctionDeclaration declaration)).
Proof.
  destruct c; simpl; intros H;
    repeat match goal with
    | x : option _ |- _ => destruct x; simpl in H; try discriminate H
    end; injection H as <-;
    (eexists; split; [|split; [|split]];
     [ | | | first [ left; vm_compute; reflexivity
                   | right; split; [vm_compute; reflexivity | eexists; reflexivity] ] ];
     [ reflexivity | simpl; discriminate | simpl; discriminate ]).
Qed.

(** Every factory but [unsupportedFunctionDeclaration] hands the
    diagnostic back to its caller. *)
Corollary factory_returns (c : Factory.t) (n : ts.Node) :
  Factory.anchor c = Some n ->
  (forall declaration, c <> Factory.unsupportedFunctionDeclaration declaration) ->
  exists d, Factory.call c = Return d /\ node d = n.
Proof.
  intros Ha Hc.
  destruct (factory_outcome c Ha) as (d & Hn & _ & _ & [H | [_ [declaration H]]]).
  - now exists d.
  - now contradiction (Hc declaration).
Qed.

Lemma factory_without_node (c : Factory.t) :
  Factory.anchor c = None ->
  exists e, Factory.call c = Throw e /\ forall d, e <> Diagnostic d.
Proof.
  destruct c; simpl; intros H;
    repeat match goal with
    | x : option _ |- _ => destruct x; simpl in H; try discriminate H
    end;
    (eexists; split; [vm_compute; reflexivity | intros d; discriminate]).
Qed.

End DiagnosticProperties.

Section DiagnosticClaims.
Context {names : ts.SyntaxKindNames}.

(** C3.  A diagnostic is constructed only from a node that is defined, a
    code that is not zero and a message that is not empty: the constructor
    fails with an assertion error whenever the node is absent, the code is
    zero or the message is empty, and what it returns carries the three
    arguments; [createException] inherits the precondition for the code of
    the catalogue entry and the formatted message; every factory called
    without a node fails before a diagnostic exists, and every diagnostic
    that a factory returns has the node of the call, a code that is not
    zero and a message that is not empty. *)
Theorem diagnostic_construction_precondition :
  (forall node0 code0 message0,
     node0 = None \/ code0 = 0 \/ message0 = "" ->
     exists text,
       CodeGenerationDiagnostic.new node0 code0 message0 =
       Throw (AssertionError text)) /\
  (forall node0 code0 message0 d,
     CodeGenerationDiagnostic.new node0 code0 message0 = Return d ->
     node0 = Some (node d) /\ code0 = code d /\ message0 = message d /\
     code0 <> 0 /\ message0 <> "") /\
  (forall node0 diagnostic args,
     node0 = None \/ template_code diagnostic = 0 \/
     util.format (template diagnostic) args = "" ->
     exists text,
       CodeGenerationDiagnostic.createException node0 diagnostic args =
       Throw (AssertionError text)) /\
  (forall c : Factory.t,
     Factory.anchor c = None ->
     exists e, Factory.call c = Throw e /\ forall d, e <> Diagnostic d) /\
  (forall (c : Factory.t) d,
     Factory.call c = Return d ->
     Factory.anchor c = Some (node d) /\ code d <> 0 /\ message d <> "").
Proof.
  split; [exact new_Throw|].
  split; [exact new_Return|].
  split; [intros node0 diagnostic args; apply new_Throw|].
  split; [exact factory_without_node|].
  intros c d Hd.
  destruct (Factory.anchor c) as [n|] eqn:Ha.
  - destruct (factory_outcome c Ha) as (d' & Hn & Hc & Hm & [H|[H _]]);
      rewrite H in Hd; [|discriminate].
    injection Hd as <-. now subst n.
  - destruct (factory_without_node c Ha) as (e & H & _).
    rewrite H in Hd. discriminate.
Qed.

(** C7.  [toDiagnostic] yields the host record of a diagnostic: its code,
    its message as [messageText], the full start of the anchor node as
    [start], the full width of the anchor node ([end - pos]) as [length],
    the category [Error] and the source file of the anchor node as [file];
    for a diagnostic built by the constructor these are the code, the
    message and the node given to the constructor. *)
Theorem toDiagnostic_record :
  (forall d : CodeGenerationDiagnostic,
     CodeGenerationDiagnostic.toDiagnostic d =
     {| ts.Diagnostic_code := code d;
        ts.messageText := message d;
        ts.start := ts.pos (node d);
        ts.length := ts.end_ (node d) - ts.pos (node d);
        ts.category := ts.DiagnosticCategory.Error;
        ts.file := ts.sourceFile (node d) |}) /\
  (forall anchor code0 message0 d,
     CodeGenerationDiagnostic.new (Some anchor) code0 message0 = Return d ->
     CodeGenerationDiagnostic.toDiagnostic d =
     {| ts.Diagnostic_code := code0;
        ts.messageText := message0;
        ts.start := ts.getFullStart anchor;
        ts.length := ts.getFullWidth anchor;
        ts.category := ts.DiagnosticCategory.Error;
        ts.file := ts.getSourceFile anchor |}).
Proof.
  split.
  - intros d. reflexivity.
  - intros anchor code0 message0 d H.
    apply new_Return in H as (Hn & -> & -> & _).
    injection Hn as ->. reflexivity.
Qed.

(** C8 (the code departs from it).  [unsupportedFunctionDeclaration]
    raises the diagnostic that it constructs: called with a declaration it
    throws the diagnostic number 1000028 anchored at the declaration, and
    no call of it returns a value. *)
Theorem unsupportedFunctionDeclaration_throws :
  (forall declaration : ts.Node,
     CodeGenerationDiagnostic.unsupportedFunctionDeclaration (Some declaration) =
     Throw (Diagnostic
       {| node := declaration;
          code := 1000028;
          message := "Unsupported function declaration. Only function and method declarations are supported." |})) /\
  (forall declaration d,
     CodeGenerationDiagnostic.unsupportedFunctionDeclaration declaration <> Return d).
Proof.
  split.
  - intros declaration. reflexivity.
  - intros [declaration|] d; vm_compute; discriminate.
Qed.

(** C10.  [builtInDoesNotSupportElementAccess] passes one format argument,
    the object name, to a template with two ["%s"] directives: for every
    element access expression and object name it returns the diagnostic
    number 100002 whose message has the object name in place of the first
    directive and keeps the second ["%s"] and the ["$s"] as they are. *)
Theorem builtInDoesNotSupportElementAccess_message
  (element : ts.Node) (objectName : string) :
  util.placeholders
    (template diagnostics.BuiltInObjectDoesNotSupportElementAccess) = 2%nat /\
  CodeGenerationDiagnostic.builtInDoesNotSupportElementAccess
    (Some element) objectName =
  CodeGenerationDiagnostic.createException (Some element)
    diagnostics.BuiltInObjectDoesNotSupportElementAccess [objectName] /\
  CodeGenerationDiagnostic.builtInDoesNotSupportElementAccess
    (Some element) objectName =
  Return
    {| node := element;
       code := 100002;
       message := "The built in object '" ++ objectName ++
                  "' does not support element access (%s[index] or $s[index]=value)." |}.
Proof.
  split; [reflexivity|]. split; [reflexivity|].
  unfold CodeGenerationDiagnostic.builtInDoesNotSupportElementAccess,
    CodeGenerationDiagnostic.createException.
  rewrite new_spec. reflexivity.
Qed.

End DiagnosticClaims.

(** ** The type mapper *)
Section TypeMapperProperties.
Context {TF : ts.TypeFlags.t} {C : Collaborators} {O : Operations}.

Lemma hasFlag_true_iff (type : ts.Type_) (mask : Z) :
  hasFlag type mask = true <-> Z.land (ts.flags type) mask <> 0.
Proof. apply truthy_true_iff. Qed.

Lemma hasFlag_false_iff (type : ts.Type_) (mask : Z) :
  hasFlag type mask = false <-> Z.land (ts.flags type) mask = 0.
Proof.
  unfold hasFlag, truthy. rewrite negb_false_iff. apply Z.eqb_eq.
Qed.

Lemma objectClassReference_None (type : ts.Type_) (context : CodeGenerationContext) :
  (hasFlag type ts.TypeFlags.Object = true -> resolveClass context type = None) ->
  objectClassReference type context = None.
Proof.
  unfold objectClassReference.
  destruct (hasFlag type ts.TypeFlags.Object); auto.
Qed.

(** The non-nullable type of the union of an object type and [undefined],
    in either order, is the object type. *)
Lemma getNonNullableType_maybe (type object undefined : ts.Type_) :
  hasFlag type ts.TypeFlags.Union = true ->
  ts.types type = [object; undefined] \/ ts.types type = [undefined; object] ->
  ts.isNullable object = false ->
  hasFlag undefined ts.TypeFlags.Undefined = true ->
  ts.getNonNullableType type = object.
Proof.
  intros Hu Ht Ho Hn.
  assert (Hn' : ts.isNullable undefined = true).
  { apply hasFlag_true_iff in Hn. unfold ts.isNullable.
    apply negb_true_iff, Z.eqb_neq.
    rewrite Z.land_lor_distr_r, Z.lor_eq_0_iff. tauto. }
  unfold ts.getNonNullableType. fold (truthy (Z.land (ts.flags type) ts.TypeFlags.Union)).
  fold (hasFlag type ts.TypeFlags.Union). rewrite Hu.
  destruct Ht as [-> | ->]; simpl; rewrite Ho, Hn'; reflexivity.
Qed.

Lemma isMaybeObjectType_maybe (type object undefined : ts.Type_) :
  hasFlag type ts.TypeFlags.Union = true ->
  ts.types type = [object; undefined] \/ ts.types type = [undefined; object] ->
  hasFlag object ts.TypeFlags.Object = true ->
  hasFlag undefined ts.TypeFlags.Undefined = true ->
  isMaybeObjectType type = true.
Proof.
  intros Hu Ht Ho Hn. unfold isMaybeObjectType. rewrite Hu.
  destruct Ht as [-> | ->]; simpl; rewrite Ho, Hn;
    repeat rewrite ?orb_true_r, ?orb_true_l, ?andb_true_l; reflexivity.
Qed.

(** The nullable-object rule for any type that reaches it. *)
Lemma toLLVMType_maybe (type : ts.Type_) (context : CodeGenerationContext) :
  hasFlag type ts.TypeFlags.IntLike = false ->
  hasFlag type ts.TypeFlags.NumberLike = false ->
  hasFlag type ts.TypeFlags.BooleanLike = false ->
  hasFlag type ts.TypeFlags.Any = false ->
  hasFlag type ts.TypeFlags.Void = false ->
  hasFlag type ts.TypeFlags.Undefined = false ->
  (hasFlag type ts.TypeFlags.Object = true -> resolveClass context type = None) ->
  isMaybeObjectType type = true ->
  toLLVMType type context = toLLVMType (ts.getNonNullableType type) context.
Proof.
  intros Hi Hn Hb Ha Hv Hu Ho Hm.
  rewrite toLLVMType_equation at 1.
  rewrite Hi, Hn, Hb, Ha, Hv, Hu, (objectClassReference_None _ _ Ho), Hm.
  reflexivity.
Qed.

(** C1.  The type mapper tests its rules in order and the first that
    matches decides: an int-like type maps to the 32-bit integer type;
    otherwise a number-like type to the double type; otherwise a
    boolean-like type to the 1-bit integer type; a void type that none of
    the rules before it (these three and the [any] rule) matches to the
    void type; then an undefined type to the pointer to the 8-bit integer
    type; then an object type whose class resolves to the pointer to the
    struct type that the class reference generates; and then the union of
    exactly an object type and undefined to whatever its non-nullable
    member maps to. *)
Theorem toLLVMType_supported (type : ts.Type_) (context : CodeGenerationContext) :
  (hasFlag type ts.TypeFlags.IntLike = true ->
   toLLVMType type context = Return llvm.Int32Ty) /\
  (hasFlag type ts.TypeFlags.IntLike = false ->
   hasFlag type ts.TypeFlags.NumberLike = true ->
   toLLVMType type context = Return llvm.DoubleTy) /\
  (hasFlag type ts.TypeFlags.IntLike = false ->
   hasFlag type ts.TypeFlags.NumberLike = false ->
   hasFlag type ts.TypeFlags.BooleanLike = true ->
   toLLVMType type context = Return llvm.Int1Ty) /\
  (hasFlag type ts.TypeFlags.IntLike = false ->
   hasFlag type ts.TypeFlags.NumberLike = false ->
   hasFlag type ts.TypeFlags.BooleanLike = false ->
   hasFlag type ts.TypeFlags.Any = false ->
   (hasFlag type ts.TypeFlags.Void = true ->
    toLLVMType type context = Return llvm.VoidTy) /\
   (hasFlag type ts.TypeFlags.Void = false ->
    hasFlag type ts.TypeFlags.Undefined = true ->
    toLLVMType type context = Return (llvm.PointerTy llvm.Int8Ty)) /\
   (hasFlag type ts.TypeFlags.Void = false ->
    hasFlag type ts.TypeFlags.Undefined = false ->
    forall classReference,
      hasFlag type ts.TypeFlags.Object = true ->
      resolveClass context type = Some classReference ->
      toLLVMType type context =
      Return (llvm.PointerTy (getLLVMType classReference type context))) /\
   (hasFlag type ts.TypeFlags.Void = false ->
    hasFlag type ts.TypeFlags.Undefined = false ->
    (hasFlag type ts.TypeFlags.Object = true ->
     resolveClass context type = None) ->
    forall object undefined,
      hasFlag type ts.TypeFlags.Union = true ->
      ts.types type = [object; undefined] \/
      ts.types type = [undefined; object] ->
      hasFlag object ts.TypeFlags.Object = true ->
      ts.isNullable object = false ->
      hasFlag undefined ts.TypeFlags.Undefined = true ->
      toLLVMType type context = toLLVMType object context)).
Proof.
  split; [intros Hi; rewrite toLLVMType_equation, Hi; reflexivity|].
  split; [intros Hi Hn; rewrite toLLVMType_equation, Hi, Hn; reflexivity|].
  split; [intros Hi Hn Hb; rewrite toLLVMType_equation, Hi, Hn, Hb; reflexivity|].
  intros Hi Hn Hb Ha.
  split; [intros Hv; rewrite toLLVMType_equation, Hi, Hn, Hb, Ha, Hv; reflexivity|].
  split; [intros Hv Hu; rewrite toLLVMType_equation, Hi, Hn, Hb, Ha, Hv, Hu;
          reflexivity|].
  split.
  - intros Hv Hu classReference Ho Hc.
    rewrite toLLVMType_equation, Hi, Hn, Hb, Ha, Hv, Hu.
    unfold objectClassReference. rewrite Ho, Hc. reflexivity.
  - intros Hv Hu Ho object undefined Hun Ht Hobj Hnn Hund.
    rewrite toLLVMType_maybe
      by eauto using isMaybeObjectType_maybe.
    rewrite (@getNonNullableType_maybe type object undefined); auto.
Qed.

(** C4, as the code has it.  A type with the [any] flag that none of the
    three rules before the [any] rule matches is never mapped: the type
    mapper throws the plain error "Any type not supported, annotate the
    type", which is not a coded diagnostic, and no later rule is tried. *)
Theorem toLLVMType_any (type : ts.Type_) (context : CodeGenerationContext) :
  hasFlag type ts.TypeFlags.IntLike = false ->
  hasFlag type ts.TypeFlags.NumberLike = false ->
  hasFlag type ts.TypeFlags.BooleanLike = false ->
  hasFlag type ts.TypeFlags.Any = true ->
  toLLVMType type context =
  Throw (Error "Any type not supported, annotate the type").
Proof.
  intros Hi Hn Hb Ha.
  rewrite toLLVMType_equation, Hi, Hn, Hb, Ha. reflexivity.
Qed.

(** What is left of the type mapper for a type that no rule matches. *)
Lemma toLLVMType_fallback (type : ts.Type_) (context : CodeGenerationContext) :
  hasFlag type ts.TypeFlags.IntLike = false ->
  hasFlag type ts.TypeFlags.NumberLike = false ->
  hasFlag type ts.TypeFlags.BooleanLike = false ->
  hasFlag type ts.TypeFlags.Any = false ->
  hasFlag type ts.TypeFlags.Void = false ->
  hasFlag type ts.TypeFlags.Undefined = false ->
  (hasFlag type ts.TypeFlags.Object = true -> resolveClass context type = None) ->
  isMaybeObjectType type = false ->
  toLLVMType type context =
  match ts.getSymbol type with
  | Some symbol =>
      match ts.getDeclarations symbol with
      | None => Throw (TypeError "Cannot read property 'length' of undefined")
      | Some (first :: _) =>
          Throw (Diagnostic
            {| node := first;
               code := 100005;
               message := "The type '" ++
                          typeToString (typeChecker context) type ++
                          "' is not supported." |})
      | Some [] =>
          Throw (Error ("Unsupported type " ++
                        typeToString (typeChecker context) type))
      end
  | None =>
      Throw (Error ("Unsupported type " ++
                    typeToString (typeChecker context) type))
  end.
Proof.
  intros Hi Hn Hb Ha Hv Hu Ho Hm.
  rewrite toLLVMType_equation at 1.
  rewrite Hi, Hn, Hb, Ha, Hv, Hu, (objectClassReference_None _ _ Ho), Hm.
  destruct (ts.getSymbol type) as [symbol|]; [|reflexivity].
  destruct (ts.getDeclarations symbol) as [[|first rest]|]; reflexivity.
Qed.

(** C6 (the code departs from it).  A type that none of the mapping rules
    matches is rejected: when its symbol has a declaration, with the
    diagnostic UnsupportedType (code 100005) anchored at the first
    declaration, whose message quotes the name that the checker renders
    for the type; when it has no symbol, or a symbol with an empty list of
    declarations, with a plain error "Unsupported type" followed by that
    name.  For a symbol whose [getDeclarations()] is [undefined] the test
    of the declarations itself fails: the type mapper raises a type error
    where the generic unsupported-type error was meant. *)
Theorem toLLVMType_unsupported (type : ts.Type_) (context : CodeGenerationContext) :
  hasFlag type ts.TypeFlags.IntLike = false ->
  hasFlag type ts.TypeFlags.NumberLike = false ->
  hasFlag type ts.TypeFlags.BooleanLike = false ->
  hasFlag type ts.TypeFlags.Any = false ->
  hasFlag type ts.TypeFlags.Void = false ->
  hasFlag type ts.TypeFlags.Undefined = false ->
  (hasFlag type ts.TypeFlags.Object = true -> resolveClass context type = None) ->
  isMaybeObjectType type = false ->
  (forall symbol first rest,
     ts.getSymbol type = Some symbol ->
     ts.getDeclarations symbol = Some (first :: rest) ->
     toLLVMType type context =
     Throw (Diagnostic
       {| node := first;
          code := 100005;
          message := "The type '" ++ typeToString (typeChecker context) type ++
                     "' is not supported." |})) /\
  ((ts.getSymbol type = None \/
    exists symbol, ts.getSymbol type = Some symbol /\
                   ts.getDeclarations symbol = Some []) ->
   toLLVMType type context =
   Throw (Error ("Unsupported type " ++ typeToString (typeChecker context) type))) /\
  (forall symbol,
     ts.getSymbol type = Some symbol ->
     ts.getDeclarations symbol = None ->
     toLLVMType type context =
     Throw (TypeError "Cannot read property 'length' of undefined")).
Proof.
  intros Hi Hn Hb Ha Hv Hu Ho Hm.
  rewrite (@toLLVMType_fallback type context Hi Hn Hb Ha Hv Hu Ho Hm).
  split; [|split].
  - intros symbol first rest -> ->. reflexivity.
  - intros [-> | (symbol & -> & ->)]; reflexivity.
  - intros symbol -> ->. reflexivity.
Qed.

End TypeMapperProperties.

(** ** The module's function table *)
Section ModuleProperties.

Lemma lookup_None (name : string) (declarations : list llvm.Declaration) (i : nat) :
  llvm.lookup name declarations i = None ->
  filter (fun d => String.eqb (llvm.name d) name) declarations = [].
Proof.
  revert i. induction declarations as [|d rest IH]; intros i; simpl; [reflexivity|].
  destruct (String.eqb (llvm.name d) name); [discriminate|]. apply IH.
Qed.

Lemma lookup_Some (name : string) (declarations : list llvm.Declaration)
  (i : nat) (fn0 : llvm.Function) :
  llvm.lookup name declarations i = Some fn0 ->
  (i <= fn0)%nat /\
  (exists d, nth_error declarations (fn0 - i) = Some d /\ llvm.name d = name) /\
  (1 <= List.length (filter (fun d => String.eqb (llvm.name d) name) declarations))%nat.
Proof.
  revert i. induction declarations as [|d rest IH]; intros i; simpl; [discriminate|].
  destruct (String.eqb (llvm.name d) name) eqn:E.
  - intros [= <-]. rewrite Nat.sub_diag. simpl. repeat split; try lia.
    exists d. split; [reflexivity | now apply String.eqb_eq].
  - intros H. apply IH in H as (Hle & (d' & Hd & Hn) & Hc).
    repeat split; try lia.
    exists d'. replace (fn0 - i)%nat with (S (fn0 - S i)) by lia. now split.
Qed.

Lemma lookup_app (name : string) (declarations more : list llvm.Declaration)
  (i : nat) (fn0 : llvm.Function) :
  llvm.lookup name declarations i = Some fn0 ->
  llvm.lookup name (declarations ++ more) i = Some fn0.
Proof.
  revert i. induction declarations as [|d rest IH]; intros i; simpl; [discriminate|].
  destruct (String.eqb (llvm.name d) name); [trivial | apply IH].
Qed.

Lemma lookup_created (name : string) (declarations : list llvm.Declaration)
  (i : nat) (d : llvm.Declaration) :
  llvm.lookup name declarations i = None ->
  llvm.name d = name ->
  llvm.lookup name (declarations ++ [d]) i = Some (i + List.length declarations)%nat.
Proof.
  intros H Hd. revert i H.
  induction declarations as [|d' rest IH]; intros i; simpl.
  - intros _. rewrite <- Hd, String.eqb_refl. f_equal. lia.
  - destruct (String.eqb (llvm.name d') name); [discriminate|].
    intros H. rewrite (IH _ H). f_equal. lia.
Qed.

(** Find-or-declare, as [createPowFunction] and [createSqrtFunction] spell
    it out: afterwards the name is bound to the function that is returned,
    that function carries the name, and the module holds one declaration
    of the name unless it held several before. *)
Lemma find_or_declare (module0 : llvm.Module_) (name : string)
  (type0 : llvm.Type_) (linkage0 : llvm.LinkageTypes.t) :
  let outcome :=
    match llvm.getFunction module0 name with
    | Some fn0 => (fn0, module0)
    | None => llvm.Function_create type0 linkage0 name module0
    end in
  llvm.getFunction (snd outcome) name = Some (fst outcome) /\
  (exists d, llvm.declaration (snd outcome) (fst outcome) = Some d /\
             llvm.name d = name /\
             (llvm.getFunction module0 name = None ->
              llvm.type d = type0 /\ llvm.linkage d = linkage0)) /\
  llvm.count (snd outcome) name = Nat.max 1 (llvm.count module0 name).
Proof.
  unfold llvm.getFunction, llvm.declaration, llvm.count.
  destruct module0 as [declarations]; simpl.
  destruct (llvm.lookup name declarations 0) as [fn0|] eqn:E; simpl.
  - apply lookup_Some in E as H. destruct H as (_ & (d & Hd & Hn) & Hc).
    rewrite Nat.sub_0_r in Hd.
    split; [assumption|].
    split; [|destruct (List.length _); [lia | reflexivity]].
    exists d. repeat split; trivial; discriminate.
  - split; [apply lookup_created; [exact E | reflexivity]|]. split.
    + eexists. rewrite nth_error_app2, Nat.sub_diag by lia. simpl.
      repeat split; reflexivity.
    + rewrite filter_app, length_app, (@lookup_None name declarations 0%nat E). simpl.
      rewrite String.eqb_refl. reflexivity.
Qed.

End ModuleProperties.

(** ** The Math object *)
Section MathProperties.
Context {C : Collaborators} {O : Operations}.

Lemma createPowFunction_eq (numberType mathType : ts.Type_)
  (context : CodeGenerationContext) :
  MathObjectReference.createPowFunction numberType mathType context =
  let found :=
    match llvm.getFunction (module context) "llvm.pow.f64" with
    | Some fn0 => (fn0, module context)
    | None =>
        llvm.Function_create
          (llvm.FunctionTy llvm.DoubleTy [llvm.DoubleTy; llvm.DoubleTy] false)
          llvm.LinkageTypes.ExternalLinkage "llvm.pow.f64" (module context)
    end in
  (ResolvedFunctionReference.create (fst found)
     (set_instanceMethod
        (createResolvedFunction "pow" []
           [createResolvedParameter "value" numberType;
            createResolvedParameter "exp" numberType]
           numberType None (Some mathType)) false),
   snd found).
Proof.
  unfold MathObjectReference.createPowFunction.
  destruct (llvm.getFunction (module context) "llvm.pow.f64"); reflexivity.
Qed.

Lemma createSqrtFunction_eq (this : MathObjectReference) (signature : ts.Signature)
  (context : CodeGenerationContext) :
  MathObjectReference.createSqrtFunction this signature context =
  let found :=
    match llvm.getFunction (module context) "llvm.sqrt.f64" with
    | Some fn0 => (fn0, module context)
    | None =>
        llvm.Function_create
          (llvm.FunctionTy llvm.DoubleTy [llvm.DoubleTy] false)
          llvm.LinkageTypes.ExternalLinkage "llvm.sqrt.f64" (module context)
    end in
  (ResolvedFunctionReference.create (fst found)
     (set_instanceMethod
        (createResolvedFunctionFromSignature signature
           (compilationContext context) (type this)) false),
   snd found).
Proof.
  unfold MathObjectReference.createSqrtFunction.
  destruct (llvm.getFunction (module context) "llvm.sqrt.f64"); reflexivity.
Qed.

(** What a caller can rely on after either intrinsic has been resolved. *)
Lemma createPowFunction_declared (numberType mathType : ts.Type_)
  (context : CodeGenerationContext) :
  let outcome := MathObjectReference.createPowFunction numberType mathType context in
  llvm.getFunction (snd outcome) "llvm.pow.f64" = Some (fn (fst outcome)) /\
  (exists d, llvm.declaration (snd outcome) (fn (fst outcome)) = Some d /\
     llvm.name d = "llvm.pow.f64" /\
     (llvm.getFunction (module context) "llvm.pow.f64" = None ->
      llvm.type d =
        llvm.FunctionTy llvm.DoubleTy [llvm.DoubleTy; llvm.DoubleTy] false /\
      llvm.linkage d = llvm.LinkageTypes.ExternalLinkage)) /\
  llvm.count (snd outcome) "llvm.pow.f64" =
  Nat.max 1 (llvm.count (module context) "llvm.pow.f64").
Proof.
  rewrite createPowFunction_eq. cbv zeta. unfold fst at 2 4 6, snd at 1 3 5.
  unfold ResolvedFunctionReference.create, fn.
  apply find_or_declare.
Qed.

Lemma createSqrtFunction_declared (this : MathObjectReference)
  (signature : ts.Signature) (context : CodeGenerationContext) :
  let outcome := MathObjectReference.createSqrtFunction this signature context in
  llvm.getFunction (snd outcome) "llvm.sqrt.f64" = Some (fn (fst outcome)) /\
  (exists d, llvm.declaration (snd outcome) (fn (fst outcome)) = Some d /\
     llvm.name d = "llvm.sqrt.f64" /\
     (llvm.getFunction (module context) "llvm.sqrt.f64" = None ->
      llvm.type d = llvm.FunctionTy llvm.DoubleTy [llvm.DoubleTy] false /\
      llvm.linkage d = llvm.LinkageTypes.ExternalLinkage)) /\
  llvm.count (snd outcome) "llvm.sqrt.f64" =
  Nat.max 1 (llvm.count (module context) "llvm.sqrt.f64").
Proof.
  rewrite createSqrtFunction_eq. cbv zeta. unfold fst at 2 4 6, snd at 1 3 5.
  unfold ResolvedFunctionReference.create, fn.
  apply find_or_declare.
Qed.

End MathProperties.

Section MathClaims.
Context {C : Collaborators} {O : Operations}.

Lemma builtInMethodNotSupported_Math
  (propertyAccessExpression : ts.PropertyAccessExpression) (name : string) :
  CodeGenerationError.builtInMethodNotSupported
    (Some propertyAccessExpression) "Math" name =
  Return
    {| node := ts.PropertyAccessExpression_node propertyAccessExpression;
       code := 100000;
       message := "The method '" ++ name ++
                  "' of the built in object 'Math' is not supported." |}.
Proof.
  unfold CodeGenerationError.builtInMethodNotSupported,
    CodeGenerationDiagnostic.builtInMethodNotSupported,
    CodeGenerationDiagnostic.createException.
  rewrite new_spec. reflexivity.
Qed.

(** C2.  [createFunctionFor] on the Math object, given the one signature
    of the member: for [sin], [cos] and [log] the result is the reference
    that [createRuntimeFunction] makes for the resolved signature (as a
    function without receiver) with the attributes readnone and noUnwind;
    for [pow] and [sqrt] it is a reference to the function that the module
    declares under the name llvm.pow.f64, respectively llvm.sqrt.f64
    (declared as double(double, double), respectively double(double), when
    the module did not have it); for every other member name the call
    throws the diagnostic BuiltInMethodNotSupported, code 100000, anchored
    at the property access, whose message names the member and the object
    "Math". *)
Theorem createFunctionFor_dispatch (this : MathObjectReference)
  (symbol : ts.Symbol) (signature : ts.Signature)
  (propertyAccessExpression : ts.PropertyAccessExpression)
  (context : CodeGenerationContext) :
  let name := ts.Symbol_name symbol in
  let outcome :=
    MathObjectReference.createFunctionFor this symbol [signature]
      propertyAccessExpression context in
  (name = "sin" \/ name = "cos" \/ name = "log" ->
   outcome =
   Return (createRuntimeFunction
             (set_instanceMethod
                (createResolvedFunctionFromSignature signature
                   (compilationContext context) (type this)) false)
             context {| readnone := true; noUnwind := true |})) /\
  (name = "pow" ->
   exists reference module',
     outcome = Return (reference, module') /\
     (reference, module') =
       MathObjectReference.createPowFunction (ts.getReturnType signature)
         (type this) context /\
     llvm.getFunction module' "llvm.pow.f64" = Some (fn reference) /\
     exists d, llvm.declaration module' (fn reference) = Some d /\
       llvm.name d = "llvm.pow.f64" /\
       (llvm.getFunction (module context) "llvm.pow.f64" = None ->
        llvm.type d =
          llvm.FunctionTy llvm.DoubleTy [llvm.DoubleTy; llvm.DoubleTy] false /\
        llvm.linkage d = llvm.LinkageTypes.ExternalLinkage)) /\
  (name = "sqrt" ->
   exists reference module',
     outcome = Return (reference, module') /\
     (reference, module') =
       MathObjectReference.createSqrtFunction this signature context /\
     llvm.getFunction module' "llvm.sqrt.f64" = Some (fn reference) /\
     exists d, llvm.declaration module' (fn reference) = Some d /\
       llvm.name d = "llvm.sqrt.f64" /\
       (llvm.getFunction (module context) "llvm.sqrt.f64" = None ->
        llvm.type d = llvm.FunctionTy llvm.DoubleTy [llvm.DoubleTy] false /\
        llvm.linkage d = llvm.LinkageTypes.ExternalLinkage)) /\
  (name <> "sin" -> name <> "cos" -> name <> "log" ->
   name <> "pow" -> name <> "sqrt" ->
   outcome =
   Throw (Diagnostic
     {| node := ts.PropertyAccessExpression_node propertyAccessExpression;
        code := 100000;
        message := "The method '" ++ name ++
                   "' of the built in object 'Math' is not supported." |})).
Proof.
  intros name outcome. subst outcome.
  unfold MathObjectReference.createFunctionFor. fold name.
  cbn [List.length Nat.eqb assert bind].
  split; [|split; [|split]].
  - intros [H|[H|H]]; rewrite H; reflexivity.
  - intros H. rewrite H. simpl.
    pose proof (createPowFunction_declared (ts.getReturnType signature)
                  (type this) context) as (Hg & Hd & _).
    destruct (MathObjectReference.createPowFunction _ _ _) as [reference module'].
    exists reference, module'. auto.
  - intros H. rewrite H. simpl.
    pose proof (createSqrtFunction_declared this signature context) as (Hg & Hd & _).
    destruct (MathObjectReference.createSqrtFunction _ _ _) as [reference module'].
    exists reference, module'. auto.
  - intros Hsin Hcos Hlog Hpow Hsqrt.
    apply String.eqb_neq in Hsin, Hcos, Hlog, Hpow, Hsqrt.
    rewrite Hsin, Hcos, Hlog, Hpow, Hsqrt. cbn [orb].
    rewrite builtInMethodNotSupported_Math. reflexivity.
Qed.

(** C5.  Resolving the [pow] intrinsic twice in one module is idempotent,
    and so is resolving [sqrt]: the second reference is bound to the
    function of the first, the second call leaves the module as the first
    left it, the name llvm.pow.f64 (llvm.sqrt.f64) is bound to that
    function, and the module has one declaration of the name unless it had
    several to begin with. *)
Theorem intrinsic_declaration_idempotent (context : CodeGenerationContext) :
  (forall numberType mathType numberType' mathType',
     let first :=
       MathObjectReference.createPowFunction numberType mathType context in
     let second :=
       MathObjectReference.createPowFunction numberType' mathType'
         (with_module context (snd first)) in
     fn (fst second) = fn (fst first) /\
     snd second = snd first /\
     llvm.getFunction (snd first) "llvm.pow.f64" = Some (fn (fst first)) /\
     llvm.count (snd second) "llvm.pow.f64" =
     Nat.max 1 (llvm.count (module context) "llvm.pow.f64")) /\
  (forall this signature this' signature',
     let first := MathObjectReference.createSqrtFunction this signature context in
     let second :=
       MathObjectReference.createSqrtFunction this' signature'
         (with_module context (snd first)) in
     fn (fst second) = fn (fst first) /\
     snd second = snd first /\
     llvm.getFunction (snd first) "llvm.sqrt.f64" = Some (fn (fst first)) /\
     llvm.count (snd second) "llvm.sqrt.f64" =
     Nat.max 1 (llvm.count (module context) "llvm.sqrt.f64")).
Proof.
  split.
  - intros numberType mathType numberType' mathType' first second.
    destruct (createPowFunction_declared numberType mathType context)
      as (Hg & _ & Hc).
    fold first in Hg, Hc.
    assert (E : fn (fst second) = fn (fst first) /\ snd second = snd first).
    { subst second. rewrite createPowFunction_eq. simpl. rewrite Hg. now split. }
    destruct E as [E1 E2]. rewrite E2. auto.
  - intros this signature this' signature' first second.
    destruct (createSqrtFunction_declared this signature context)
      as (Hg & _ & Hc).
    fold first in Hg, Hc.
    assert (E : fn (fst second) = fn (fst first) /\ snd second = snd first).
    { subst second. rewrite createSqrtFunction_eq. simpl. rewrite Hg. now split. }
    destruct E as [E1 E2]. rewrite E2. auto.
Qed.

(** C9.  [createFunctionFor] asserts that it is given one signature: with
    any other number of signatures it fails with the assertion error "Math
    functions have not to be overloaded", which is not a diagnostic; with
    one signature no assertion fails, the call returns a reference or
    throws a diagnostic. *)
Theorem createFunctionFor_one_signature (this : MathObjectReference)
  (symbol : ts.Symbol) (signatures : list ts.Signature)
  (propertyAccessExpression : ts.PropertyAccessExpression)
  (context : CodeGenerationContext) :
  let outcome :=
    MathObjectReference.createFunctionFor this symbol signatures
      propertyAccessExpression context in
  (List.length signatures <> 1%nat ->
   outcome = Throw (AssertionError "Math functions have not to be overloaded") /\
   forall d, outcome <> Throw (Diagnostic d)) /\
  (List.length signatures = 1%nat ->
   (forall text, outcome <> Throw (AssertionError text)) /\
   ((exists reference, outcome = Return reference) \/
    (exists d, outcome = Throw (Diagnostic d)))).
Proof.
  intros outcome. subst outcome. split.
  - intros H. unfold MathObjectReference.createFunctionFor.
    destruct signatures as [|s [|s' rest]]; simpl in *;
      try (split; [reflexivity | discriminate]).
    contradiction H. reflexivity.
  - intros H. destruct signatures as [|s [|s' rest]]; try discriminate H.
    unfold MathObjectReference.createFunctionFor.
    cbn [List.length Nat.eqb assert bind].
    destruct (_ || _ || _)%bool.
    { split; [discriminate | left; eauto]. }
    destruct (String.eqb _ "pow").
    { split; [discriminate | left; eauto]. }
    destruct (String.eqb _ "sqrt").
    { split; [discriminate | left; eauto]. }
    rewrite builtInMethodNotSupported_Math. cbn [bind].
    split; [discriminate | right; eauto].
Qed.

End MathClaims.

(* ================================================================== *)
(** * The properties on the sample inputs *)
Section Instances.

#[local] Existing Instance Sample.flags.
#[local] Existing Instance Sample.names.
#[local] Existing Instance Sample.collaborators.
#[local] Existing Instance Sample.operations.

Example format_substitutes_in_order :
  util.format "%s, then %s" ["first"; "second"] = "first, then second".
Proof. reflexivity. Qed.

Example format_keeps_unmatched_directive :
  util.format "'%s' and %s" ["only"] = "'only' and %s".
Proof. reflexivity. Qed.

Example format_appends_spare_arguments :
  util.format "done" ["one"; "two"] = "done one two".
Proof. reflexivity. Qed.

Example format_without_arguments : util.format "100%% of %s" [] = "100%% of %s".
Proof. reflexivity. Qed.

Example format_percent : util.format "100%% of %s" ["it"] = "100% of it".
Proof. reflexivity. Qed.

Example toLLVMType_sample_number :
  toLLVMType Sample.numberType Sample.context = Return llvm.DoubleTy.
Proof. vm_compute. reflexivity. Qed.

Example toLLVMType_sample_maybe :
  toLLVMType Sample.maybePoint Sample.context =
  Return (llvm.PointerTy (llvm.StructTy "class.Point" [llvm.Int32Ty])).
Proof. vm_compute. reflexivity. Qed.

Example toLLVMType_sample_unresolved :
  toLLVMType Sample.mathType Sample.context = Throw (Error "Unsupported type Math").
Proof. vm_compute. reflexivity. Qed.

(** The rules are tried in order: flags that carry a number bit next to
    the [any] bit are mapped by the number rule. *)
Example toLLVMType_number_before_any :
  hasFlag (Sample.simple 5) ts.TypeFlags.Any = true /\
  toLLVMType (Sample.simple 5) Sample.context = Return llvm.DoubleTy.
Proof. split; [reflexivity | vm_compute; reflexivity]. Qed.

Example createPowFunction_twice :
  let first :=
    MathObjectReference.createPowFunction Sample.numberType Sample.mathType
      Sample.context in
  let second :=
    MathObjectReference.createPowFunction Sample.numberType Sample.mathType
      (with_module Sample.context (snd first)) in
  fn (fst first) = 0%nat /\ fn (fst second) = 0%nat /\
  List.length (llvm.functions (snd second)) = 1%nat.
Proof. vm_compute. repeat split. Qed.

Example createFunctionFor_sample_overloaded :
  MathObjectReference.createFunctionFor Sample.math (Sample.member "sqrt")
    [] Sample.propertyAccess Sample.context =
  Throw (AssertionError "Math functions have not to be overloaded").
Proof. reflexivity. Qed.

Example unsupportedFunctionDeclaration_sample :
  CodeGenerationDiagnostic.unsupportedFunctionDeclaration (Some Sample.node) =
  Throw (Diagnostic
    {| node := Sample.node; code := 1000028;
       message := "Unsupported function declaration. Only function and method declarations are supported." |}).
Proof. reflexivity. Qed.

Example unsupportedGenericFunction_sample :
  CodeGenerationDiagnostic.unsupportedGenericFunction (Some Sample.node) =
  Return
    {| node := Sample.node; code := 1000025;
       message := "Generic functions and methods are not yet supported." |}.
Proof. reflexivity. Qed.

(** Against C4 as it is stated: on the type [any] itself the failure of
    the type mapper is a plain error, no diagnostic is thrown. *)
Lemma any_type_failure_is_not_a_diagnostic :
  hasFlag Sample.anyType ts.TypeFlags.Any = true /\
  toLLVMType Sample.anyType Sample.context =
    Throw (Error "Any type not supported, annotate the type") /\
  forall d, toLLVMType Sample.anyType Sample.context <> Throw (Diagnostic d).
Proof.
  split; [reflexivity|]. split; [vm_compute; reflexivity|].
  intros d. vm_compute. discriminate.
Qed.

Lemma toLLVMType_any_witness :
  hasFlag Sample.anyType ts.TypeFlags.Any = true /\
  toLLVMType Sample.anyType Sample.context =
  Throw (Error "Any type not supported, annotate the type").
Proof.
  split; [reflexivity|].
  apply (toLLVMType_any Sample.anyType Sample.context); reflexivity.
Defined.

Lemma toLLVMType_supported_witness :
  toLLVMType Sample.numberType Sample.context = Return llvm.DoubleTy /\
  toLLVMType Sample.pointType Sample.context =
    Return (llvm.PointerTy (llvm.StructTy "class.Point" [llvm.Int32Ty])) /\
  toLLVMType Sample.maybePoint Sample.context =
    toLLVMType Sample.pointType Sample.context.
Proof.
  split; [|split].
  - apply (proj1 (proj2 (toLLVMType_supported Sample.numberType Sample.context)));
      reflexivity.
  - destruct (toLLVMType_supported Sample.pointType Sample.context)
      as (_ & _ & _ & H).
    specialize (H eq_refl eq_refl eq_refl eq_refl).
    destruct H as (_ & _ & H & _).
    exact (H eq_refl eq_refl "class.Point" eq_refl eq_refl).
  - destruct (toLLVMType_supported Sample.maybePoint Sample.context)
      as (_ & _ & _ & H).
    specialize (H eq_refl eq_refl eq_refl eq_refl).
    destruct H as (_ & _ & _ & H).
    refine (H eq_refl eq_refl _ Sample.pointType Sample.undefinedType
              eq_refl (or_introl eq_refl) eq_refl eq_refl eq_refl).
    discriminate.
Defined.

Lemma toLLVMType_unsupported_witness :
  toLLVMType Sample.shapeType Sample.context =
    Throw (Diagnostic
      {| node := Sample.node; code := 100005;
         message := "The type 'Shape' is not supported." |}) /\
  toLLVMType Sample.stringType Sample.context =
    Throw (Error "Unsupported type string") /\
  toLLVMType Sample.emptyObjectType Sample.context =
    Throw (TypeError "Cannot read property 'length' of undefined").
Proof.
  split; [|split].
  - refine (proj1 (toLLVMType_unsupported Sample.shapeType Sample.context
                     eq_refl eq_refl eq_refl eq_refl eq_refl eq_refl
                     (fun _ => eq_refl) eq_refl) _ Sample.node [] eq_refl eq_refl).
  - refine (proj1 (proj2 (toLLVMType_unsupported Sample.stringType Sample.context
                     eq_refl eq_refl eq_refl eq_refl eq_refl eq_refl _ eq_refl)) _).
    + discriminate.
    + left. reflexivity.
  - refine (proj2 (proj2 (toLLVMType_unsupported Sample.emptyObjectType
                     Sample.context
                     eq_refl eq_refl eq_refl eq_refl eq_refl eq_refl
                     (fun _ => eq_refl) eq_refl)) _ eq_refl eq_refl).
Defined.

Lemma diagnostic_construction_precondition_witness :
  (exists text,
     CodeGenerationDiagnostic.new (Some Sample.node) 0 "message" =
     Throw (AssertionError text)) /\
  (exists e,
     Factory.call (Factory.unsupportedIdentifier None) = Throw e /\
     forall d, e <> Diagnostic d).
Proof.
  destruct (@diagnostic_construction_precondition Sample.names)
    as (H1 & _ & _ & H4 & _).
  split.
  - apply H1. right. left. reflexivity.
  - apply H4. reflexivity.
Defined.

Lemma toDiagnostic_record_witness :
  CodeGenerationDiagnostic.toDiagnostic
    {| node := Sample.node; code := 100005; message := "The type 'Shape' is not supported." |} =
  {| ts.Diagnostic_code := 100005;
     ts.messageText := "The type 'Shape' is not supported.";
     ts.start := 10;
     ts.length := 15;
     ts.category := ts.DiagnosticCategory.Error;
     ts.file := Sample.sourceFile |}.
Proof.
  apply (proj2 toDiagnostic_record Sample.node 100005
           "The type 'Shape' is not supported."). reflexivity.
Defined.

Lemma createFunctionFor_dispatch_witness :
  MathObjectReference.createFunctionFor Sample.math (Sample.member "random")
    [Sample.unary] Sample.propertyAccess Sample.context =
  Throw (Diagnostic
    {| node := Sample.node; code := 100000;
       message := "The method 'random' of the built in object 'Math' is not supported." |}) /\
  MathObjectReference.createFunctionFor Sample.math (Sample.member "cos")
    [Sample.unary] Sample.propertyAccess Sample.context =
  Return (createRuntimeFunction
            (set_instanceMethod
               (createResolvedFunctionFromSignature Sample.unary
                  (compilationContext Sample.context) (type Sample.math)) false)
            Sample.context {| readnone := true; noUnwind := true |}).
Proof.
  split.
  - apply (createFunctionFor_dispatch Sample.math (Sample.member "random")
             Sample.unary Sample.propertyAccess Sample.context); discriminate.
  - apply (createFunctionFor_dispatch Sample.math (Sample.member "cos")
             Sample.unary Sample.propertyAccess Sample.context).
    right. left. reflexivity.
Defined.

Lemma createFunctionFor_one_signature_witness :
  MathObjectReference.createFunctionFor Sample.math (Sample.member "pow")
    [Sample.unary; Sample.unary] Sample.propertyAccess Sample.context =
  Throw (AssertionError "Math functions have not to be overloaded") /\
  forall text,
    MathObjectReference.createFunctionFor Sample.math (Sample.member "pow")
      [Sample.unary] Sample.propertyAccess Sample.context <>
    Throw (AssertionError text).
Proof.
  split.
  - apply (createFunctionFor_one_signature Sample.math (Sample.member "pow")
             [Sample.unary; Sample.unary] Sample.propertyAccess Sample.context).
    discriminate.
  - apply (createFunctionFor_one_signature Sample.math (Sample.member "pow")
             [Sample.unary] Sample.propertyAccess Sample.context).
    reflexivity.
Defined.

End Instances.

(* ================================================================== *)
(** * Further properties of the type mapper *)
Section TypeMapperOutcomes.
Context {TF : ts.TypeFlags.t} {C : Collaborators} {O : Operations}.


(** Whatever the type mapper returns is one of the five fixed
    representations or the pointer to the struct type of a class that
    resolves, for the type itself or for what is left of it after its
    nullability has been stripped some number of times: never a struct,
    function or other pointer type. *)
Theorem toLLVMType_returns (type : ts.Type_) (context : CodeGenerationContext)
  (target : llvm.Type_) :
  toLLVMType type context = Return target ->
  In target [llvm.Int32Ty; llvm.DoubleTy; llvm.Int1Ty; llvm.VoidTy;
             llvm.PointerTy llvm.Int8Ty] \/
  exists n classReference,
    let type' := Nat.iter n ts.getNonNullableType type in
    hasFlag type' ts.TypeFlags.Object = true /\
    resolveClass context type' = Some classReference /\
    target = llvm.PointerTy (getLLVMType classReference type' context).
Proof.
  functional induction (toLLVMType type context); intros H;
    try discriminate H;
    try (injection H as <-; left; simpl; tauto).
  - injection H as <-. right. exists 0%nat, classReference. simpl.
    match goal with
    | E : objectClassReference _ _ = Some _ |- _ =>
        unfold objectClassReference in E;
        destruct (hasFlag _ ts.TypeFlags.Object); [auto | discriminate E]
    end.
  - destruct (IHr H) as [Hin | (n & classReference & Hn)]; [now left|].
    right. exists (S n), classReference. rewrite Nat.iter_succ_r. exact Hn.
Qed.


End TypeMapperOutcomes.

Section TypeMapperUnions.
Context {TF : ts.TypeFlags.t} {C : Collaborators} {O : Operations}.

Lemma existsb_none {A : Type} (p : A -> bool) (l : list A) :
  (forall x, In x l -> p x = false) -> existsb p l = false.
Proof.
  intros H. destruct (existsb p l) eqn:E; [|reflexivity].
  apply existsb_exists in E as (x & Hx & Hp). rewrite (H x Hx) in Hp.
  discriminate.
Qed.

(** A nullable object is a pointer to the struct of its class: the union
    of [undefined] and an object type whose class resolves, in either
    order, maps to the pointer to the struct type that the class reference
    generates for the object type. *)
Theorem toLLVMType_nullable_object (type object undefined : ts.Type_)
  (context : CodeGenerationContext) (classReference : ClassReference) :
  hasFlag type ts.TypeFlags.IntLike = false ->
  hasFlag type ts.TypeFlags.NumberLike = false ->
  hasFlag type ts.TypeFlags.BooleanLike = false ->
  hasFlag type ts.TypeFlags.Any = false ->
  hasFlag type ts.TypeFlags.Void = false ->
  hasFlag type ts.TypeFlags.Undefined = false ->
  (hasFlag type ts.TypeFlags.Object = true -> resolveClass context type = None) ->
  hasFlag type ts.TypeFlags.Union = true ->
  ts.types type = [object; undefined] \/ ts.types type = [undefined; object] ->
  hasFlag undefined ts.TypeFlags.Undefined = true ->
  hasFlag object ts.TypeFlags.IntLike = false ->
  hasFlag object ts.TypeFlags.NumberLike = false ->
  hasFlag object ts.TypeFlags.BooleanLike = false ->
  hasFlag object ts.TypeFlags.Any = false ->
  hasFlag object ts.TypeFlags.Void = false ->
  hasFlag object ts.TypeFlags.Undefined = false ->
  hasFlag object ts.TypeFlags.Null = false ->
  hasFlag object ts.TypeFlags.Object = true ->
  resolveClass context object = Some classReference ->
  toLLVMType type context =
  Return (llvm.PointerTy (getLLVMType classReference object context)).
Proof.
  intros Hi Hn Hb Ha Hv Hu Ho Hun Ht Hund Oi On Ob Oa Ov Ou Onull Oo Oc.
  assert (Onn : ts.isNullable object = false).
  { apply hasFlag_false_iff in Ou, Onull. unfold ts.isNullable.
    rewrite Z.land_lor_distr_r, Ou, Onull. reflexivity. }
  rewrite toLLVMType_maybe by eauto using isMaybeObjectType_maybe.
  rewrite (@getNonNullableType_maybe _ type object undefined) by auto.
  rewrite toLLVMType_equation, Oi, On, Ob, Oa, Ov, Ou.
  unfold objectClassReference. rewrite Oo, Oc. reflexivity.
Qed.

(** Only the two-constituent union of an object type and [undefined] is
    looked through.  A union that no earlier rule matches and that has
    another number of constituents, or no undefined constituent (an object
    type or [null], say), or no object constituent is not a maybe-object
    type, and the type mapper treats it like any other type that no rule
    matches: the diagnostic 100005 at the first declaration of the union's
    own symbol when it has one, the plain error "Unsupported type" with
    the rendered name of the union when it has no symbol or an empty list
    of declarations, a type error when the declarations of its symbol are
    [undefined].  No constituent is mapped. *)
Theorem toLLVMType_other_union (type : ts.Type_) (context : CodeGenerationContext) :
  hasFlag type ts.TypeFlags.IntLike = false ->
  hasFlag type ts.TypeFlags.NumberLike = false ->
  hasFlag type ts.TypeFlags.BooleanLike = false ->
  hasFlag type ts.TypeFlags.Any = false ->
  hasFlag type ts.TypeFlags.Void = false ->
  hasFlag type ts.TypeFlags.Undefined = false ->
  (hasFlag type ts.TypeFlags.Object = true -> resolveClass context type = None) ->
  hasFlag type ts.TypeFlags.Union = true ->
  List.length (ts.types type) <> 2%nat \/
  (forall t, In t (ts.types type) -> hasFlag t ts.TypeFlags.Undefined = false) \/
  (forall t, In t (ts.types type) -> hasFlag t ts.TypeFlags.Object = false) ->
  isMaybeObjectType type = false /\
  (forall symbol first rest,
     ts.getSymbol type = Some symbol ->
     ts.getDeclarations symbol = Some (first :: rest) ->
     toLLVMType type context =
     Throw (Diagnostic
       {| node := first;
          code := 100005;
          message := "The type '" ++ typeToString (typeChecker context) type ++
                     "' is not supported." |})) /\
  ((ts.getSymbol type = None \/
    exists symbol, ts.getSymbol type = Some symbol /\
                   ts.getDeclarations symbol = Some []) ->
   toLLVMType type context =
   Throw (Error ("Unsupported type " ++ typeToString (typeChecker context) type))) /\
  (forall symbol,
     ts.getSymbol type = Some symbol ->
     ts.getDeclarations symbol = None ->
     toLLVMType type context =
     Throw (TypeError "Cannot read property 'length' of undefined")).
Proof.
  intros Hi Hn Hb Ha Hv Hu Ho Hun Hshape.
  assert (Hm : isMaybeObjectType type = false).
  { unfold isMaybeObjectType. rewrite Hun.
    destruct Hshape as [H | [H | H]].
    - apply Nat.eqb_neq in H. rewrite H. reflexivity.
    - rewrite (existsb_none _ _ H). now rewrite andb_false_r.
    - rewrite (existsb_none _ _ H). now rewrite andb_false_r. }
  split; [exact Hm|].
  rewrite (@toLLVMType_fallback _ _ _ type context Hi Hn Hb Ha Hv Hu Ho Hm).
  split; [|split].
  - intros symbol first rest -> ->. reflexivity.
  - intros [-> | (symbol & -> & ->)]; reflexivity.
  - intros symbol -> ->. reflexivity.
Qed.

End TypeMapperUnions.

(* ================================================================== *)
(** * Further properties of the intrinsic declarations *)
Section IntrinsicFrame.
Context {C : Collaborators} {O : Operations}.

Lemma lookup_other (name other : string) (declarations : list llvm.Declaration)
  (d : llvm.Declaration) (i : nat) :
  llvm.name d = name -> other <> name ->
  llvm.lookup other (declarations ++ [d]) i = llvm.lookup other declarations i.
Proof.
  intros Hd Ho. revert i.
  induction declarations as [|d' rest IH]; intros i; simpl.
  - rewrite Hd. apply not_eq_sym, String.eqb_neq in Ho. now rewrite Ho.
  - destruct (String.eqb (llvm.name d') other); [reflexivity | apply IH].
Qed.

(** What find-or-declare leaves alone. *)
Lemma find_or_declare_frame (module0 : llvm.Module_) (name : string)
  (type0 : llvm.Type_) (linkage0 : llvm.LinkageTypes.t) :
  let outcome :=
    match llvm.getFunction module0 name with
    | Some fn0 => (fn0, module0)
    | None => llvm.Function_create type0 linkage0 name module0
    end in
  (exists more,
     llvm.functions (snd outcome) = (llvm.functions module0 ++ more)%list /\
     (List.length more <= 1)%nat /\
     forall d, In d more -> llvm.name d = name) /\
  (forall fn0 d, llvm.declaration module0 fn0 = Some d ->
                 llvm.declaration (snd outcome) fn0 = Some d) /\
  (forall other, other <> name ->
                 llvm.getFunction (snd outcome) other =
                 llvm.getFunction module0 other).
Proof.
  unfold llvm.getFunction, llvm.declaration.
  destruct module0 as [declarations]; simpl.
  destruct (llvm.lookup name declarations 0) as [fn0|] eqn:E; simpl.
  - split; [|split]; auto.
    exists []. rewrite app_nil_r. simpl. repeat split; [lia | tauto].
  - split; [|split].
    + eexists. split; [reflexivity|]. simpl. split; [lia|].
      intros d [<- | []]. reflexivity.
    + intros fn0 d H. rewrite nth_error_app1; [assumption|].
      apply nth_error_Some. congruence.
    + intros other Ho. now apply (@lookup_other name).
Qed.

(** Resolving [pow] or [sqrt] only ever appends to the module, and at most
    one declaration, of the intrinsic's own name: every function object
    that was valid before denotes the same declaration afterwards, and the
    functions bound to all other names are the same as before. *)
Theorem intrinsic_declaration_frame (context : CodeGenerationContext) :
  (forall numberType mathType,
     let module' :=
       snd (MathObjectReference.createPowFunction numberType mathType context) in
     (exists more,
        llvm.functions module' = (llvm.functions (module context) ++ more)%list /\
        (List.length more <= 1)%nat /\
        forall d, In d more -> llvm.name d = "llvm.pow.f64") /\
     (forall fn0 d, llvm.declaration (module context) fn0 = Some d ->
                    llvm.declaration module' fn0 = Some d) /\
     (forall other, other <> "llvm.pow.f64" ->
                    llvm.getFunction module' other =
                    llvm.getFunction (module context) other)) /\
  (forall this signature,
     let module' :=
       snd (MathObjectReference.createSqrtFunction this signature context) in
     (exists more,
        llvm.functions module' = (llvm.functions (module context) ++ more)%list /\
        (List.length more <= 1)%nat /\
        forall d, In d more -> llvm.name d = "llvm.sqrt.f64") /\
     (forall fn0 d, llvm.declaration (module context) fn0 = Some d ->
                    llvm.declaration module' fn0 = Some d) /\
     (forall other, other <> "llvm.sqrt.f64" ->
                    llvm.getFunction module' other =
                    llvm.getFunction (module context) other)).
Proof.
  split.
  - intros numberType mathType module'. subst module'.
    rewrite createPowFunction_eq. cbv zeta. unfold snd at 1 3 5.
    apply find_or_declare_frame.
  - intros this signature module'. subst module'.
    rewrite createSqrtFunction_eq. cbv zeta. unfold snd at 1 3 5.
    apply find_or_declare_frame.
Qed.

End IntrinsicFrame.

Section IntrinsicComposition.
Context {C : Collaborators} {O : Operations}.

Lemma createFunctionFor_pow (this : MathObjectReference) (symbol : ts.Symbol)
  (signature : ts.Signature)
  (propertyAccessExpression : ts.PropertyAccessExpression)
  (context : CodeGenerationContext) :
  ts.Symbol_name symbol = "pow" ->
  MathObjectReference.createFunctionFor this symbol [signature]
    propertyAccessExpression context =
  Return (MathObjectReference.createPowFunction (ts.getReturnType signature)
            (type this) context).
Proof.
  intros H. unfold MathObjectReference.createFunctionFor. rewrite H. reflexivity.
Qed.

Lemma createFunctionFor_sqrt (this : MathObjectReference) (symbol : ts.Symbol)
  (signature : ts.Signature)
  (propertyAccessExpression : ts.PropertyAccessExpression)
  (context : CodeGenerationContext) :
  ts.Symbol_name symbol = "sqrt" ->
  MathObjectReference.createFunctionFor this symbol [signature]
    propertyAccessExpression context =
  Return (MathObjectReference.createSqrtFunction this signature context).
Proof.
  intros H. unfold MathObjectReference.createFunctionFor. rewrite H. reflexivity.
Qed.

(** Two find-or-declare steps for different names, one after the other. *)
Lemma find_or_declare_twice (module0 : llvm.Module_) (name1 name2 : string)
  (type1 type2 : llvm.Type_) (linkage1 linkage2 : llvm.LinkageTypes.t) :
  name1 <> name2 ->
  let first :=
    match llvm.getFunction module0 name1 with
    | Some fn0 => (fn0, module0)
    | None => llvm.Function_create type1 linkage1 name1 module0
    end in
  let second :=
    match llvm.getFunction (snd first) name2 with
    | Some fn0 => (fn0, snd first)
    | None => llvm.Function_create type2 linkage2 name2 (snd first)
    end in
  llvm.getFunction (snd second) name1 = Some (fst first) /\
  llvm.getFunction (snd second) name2 = Some (fst second) /\
  fst first <> fst second /\
  llvm.declaration (snd second) (fst first) =
  llvm.declaration (snd first) (fst first).
Proof.
  intros Hne first second.
  destruct (find_or_declare module0 name1 type1 linkage1)
    as (Hg1 & (d1 & Hd1 & Hn1 & _) & _).
  fold first in Hg1, Hd1.
  destruct (find_or_declare (snd first) name2 type2 linkage2)
    as (Hg2 & (d2 & Hd2 & Hn2 & _) & _).
  fold second in Hg2, Hd2.
  destruct (find_or_declare_frame (snd first) name2 type2 linkage2)
    as (_ & Hkeep & Hother).
  fold second in Hkeep, Hother.
  assert (Hd1' := Hkeep _ _ Hd1).
  split; [rewrite (Hother name1 Hne); exact Hg1|].
  split; [exact Hg2|].
  split; [|congruence].
  intros E. rewrite E in Hd1'. congruence.
Qed.

(** Resolving both intrinsics through [createFunctionFor], in either
    order, on the same module: both calls succeed, afterwards each name is
    bound to the function that its call returned, the two functions are
    different, and the second call has not touched the declaration of the
    first. *)
Theorem createFunctionFor_intrinsics_compose (this this' : MathObjectReference)
  (symbol1 symbol2 : ts.Symbol) (signature1 signature2 : ts.Signature)
  (access1 access2 : ts.PropertyAccessExpression)
  (context : CodeGenerationContext) :
  (ts.Symbol_name symbol1 = "pow" /\ ts.Symbol_name symbol2 = "sqrt") \/
  (ts.Symbol_name symbol1 = "sqrt" /\ ts.Symbol_name symbol2 = "pow") ->
  exists reference1 module1 reference2 module2,
    MathObjectReference.createFunctionFor this symbol1 [signature1] access1
      context = Return (reference1, module1) /\
    MathObjectReference.createFunctionFor this' symbol2 [signature2] access2
      (with_module context module1) = Return (reference2, module2) /\
    llvm.getFunction module2 ("llvm." ++ ts.Symbol_name symbol1 ++ ".f64") =
      Some (fn reference1) /\
    llvm.getFunction module2 ("llvm." ++ ts.Symbol_name symbol2 ++ ".f64") =
      Some (fn reference2) /\
    fn reference1 <> fn reference2 /\
    llvm.declaration module2 (fn reference1) =
    llvm.declaration module1 (fn reference1).
Proof.
  intros [[H1 H2] | [H1 H2]].
  - set (first := MathObjectReference.createPowFunction
                    (ts.getReturnType signature1) (type this) context).
    set (second := MathObjectReference.createSqrtFunction this' signature2
                     (with_module context (snd first))).
    exists (fst first), (snd first), (fst second), (snd second).
    rewrite <- !surjective_pairing.
    split; [now apply createFunctionFor_pow|].
    split; [now apply createFunctionFor_sqrt|].
    rewrite H1, H2. subst second first.
    rewrite createSqrtFunction_eq, createPowFunction_eq.
    cbn [fst snd fn ResolvedFunctionReference.create module with_module append].
    apply find_or_declare_twice. discriminate.
  - set (first := MathObjectReference.createSqrtFunction this signature1 context).
    set (second := MathObjectReference.createPowFunction
                     (ts.getReturnType signature2) (type this')
                     (with_module context (snd first))).
    exists (fst first), (snd first), (fst second), (snd second).
    rewrite <- !surjective_pairing.
    split; [now apply createFunctionFor_sqrt|].
    split; [now apply createFunctionFor_pow|].
    rewrite H1, H2. subst second first.
    rewrite createPowFunction_eq, createSqrtFunction_eq.
    cbn [fst snd fn ResolvedFunctionReference.create module with_module append].
    apply find_or_declare_twice. discriminate.
Qed.

End IntrinsicComposition.

(* ================================================================== *)
(** * Further properties of the diagnostics *)
Section DiagnosticOutcomes.
Context {names : ts.SyntaxKindNames}.

(** A factory that is given a node never trips an assertion of the
    constructor and never raises a type error: it produces a diagnostic
    anchored at that node whose code is one of the codes of the catalogue.
    Every factory other than [unsupportedFunctionDeclaration] returns that
    diagnostic to its caller; [unsupportedFunctionDeclaration] throws it
    and does not return. *)
Theorem factory_with_node (c : Factory.t) (n : ts.Node) :
  Factory.anchor c = Some n ->
  exists d,
    node d = n /\
    In (code d) (map template_code catalogue) /\
    (((forall declaration,
         c <> Factory.unsupportedFunctionDeclaration declaration) /\
      Factory.call c = Return d) \/
     ((exists declaration,
         c = Factory.unsupportedFunctionDeclaration declaration) /\
      Factory.call c = Throw (Diagnostic d))).
Proof.
  destruct c; simpl; intros H;
    repeat match goal with
    | x : option _ |- _ => destruct x; simpl in H; try discriminate H
    end; injection H as <-;
    (eexists; split; [|split];
     [ | | first [ left; split; [intros declaration; discriminate
                               | vm_compute; reflexivity]
                 | right; split; [eexists; reflexivity | vm_compute; reflexivity] ] ];
     [ reflexivity
     | cbv [code map catalogue template_code
            diagnostics.BuiltInMethodNotSupported
            diagnostics.BuiltInPropertyNotSupported
            diagnostics.BuiltInObjectDoesNotSupportElementAccess
            diagnostics.UnsupportedBuiltInClass
            diagnostics.UnsupportedLiteralType
            diagnostics.UnsupportedType
            diagnostics.UnsupportedIdentifier
            diagnostics.UnsupportedBinaryOperation
            diagnostics.UnsupportedUnaryOperation
            diagnostics.AnonymousEntryFunctionsUnsupported
            diagnostics.ReferenceToNonEntrySpeedyJSFunctionFromJS
            diagnostics.OptionalParametersNotSupportedForEntryFunction
            diagnostics.GenericEntryFunctionNotSuppoorted
            diagnostics.OverloadedEntryFunctionNotSupported
            diagnostics.UnsupportedSyntaxKind
            diagnostics.UnsupportedProperty
            diagnostics.UnsupportedIndexer
            diagnostics.UnsupportedCast
            diagnostics.UnsupportedImplicitArrayElementCast
            diagnostics.UnsupportedImplicitCastOfBinaryExpressionOperands
            diagnostics.UnsupportedImplicitCastOfArgument
            diagnostics.UnsupportedImplicitCastOfConditionalResult
            diagnostics.UnsupportedElementAccessExpression
            diagnostics.UnsupportedImplicitCastOfReturnValue
            diagnostics.UnsupportedImplicitCast
            diagnostics.UnsupportedGenericFunction
            diagnostics.UnsupportedStaticProperty
            diagnostics.UnsupportedNestedFunctionDeclaration
            diagnostics.UnsupportedFunctionDeclaration
            diagnostics.UnsupportedVarDeclaration
            diagnostics.UnsupportedOverloadedFunctionDeclaration
            diagnostics.UnsupportedGenericClass
            diagnostics.UnsupportedClassInheritance In];
       repeat first [left; reflexivity | right] ]).
Qed.

(** The catalogue gives every entry a code and a template of its own: a
    code, or a template, determines the entry. *)
Theorem catalogue_codes_distinct :
  NoDup (map template_code catalogue) /\
  NoDup (map template catalogue) /\
  (forall entry1 entry2,
     In entry1 catalogue -> In entry2 catalogue ->
     template_code entry1 = template_code entry2 -> entry1 = entry2).
Proof.
  assert (Hcodes : NoDup (map template_code catalogue)).
  { assert (E : nodup Z.eq_dec (map template_code catalogue) =
                map template_code catalogue) by (vm_compute; reflexivity).
    rewrite <- E. apply NoDup_nodup. }
  split; [exact Hcodes|]. split.
  - assert (E : nodup string_dec (map template catalogue) =
                map template catalogue) by (vm_compute; reflexivity).
    rewrite <- E. apply NoDup_nodup.
  - revert Hcodes. generalize catalogue as l.
    induction l as [|e l IH]; simpl; intros Hnd e1 e2 H1 H2 Heq; [contradiction|].
    inversion Hnd as [|? ? Hnot Hrest]; subst.
    destruct H1 as [<- | H1], H2 as [<- | H2]; trivial.
    + contradiction Hnot. rewrite Heq. now apply in_map.
    + contradiction Hnot. rewrite <- Heq. now apply in_map.
    + now apply IH.
Qed.

End DiagnosticOutcomes.

Section DiagnosticDetails.

(** When several preconditions of the constructor fail at once the
    assertions report them in the order node, code, message: a missing
    node is reported whatever the code and the message are, a zero code
    whatever the message is, and an empty message only for a node and a
    code that are in order. *)
Theorem constructor_assertion_order (anchor : ts.Node) (code0 : Z)
  (message0 : string) :
  CodeGenerationDiagnostic.new None code0 message0 =
    Throw (AssertionError "Node is not defined") /\
  CodeGenerationDiagnostic.new (Some anchor) 0 message0 =
    Throw (AssertionError "code is not defined") /\
  (code0 <> 0 ->
   CodeGenerationDiagnostic.new (Some anchor) code0 "" =
     Throw (AssertionError "message is not defined")).
Proof.
  rewrite !new_spec. repeat split.
  intros H. apply Z.eqb_neq in H. rewrite H. reflexivity.
Qed.

(** [unsupportedElementAccessExpression] falls back to the text
    "undefined" when the type of the argument expression is missing and
    also when it is the empty string; any other text is quoted as it is. *)
Theorem unsupportedElementAccessExpression_default
  (elementAccessExpression : ts.Node) :
  let outcome text :=
    Return
      {| node := elementAccessExpression;
         code := 1000022;
         message := "Unsupported element access expression with indexer of type '" ++
                    text ++
                    "'. Only element access expressions with an integer index are supported." |} in
  CodeGenerationDiagnostic.unsupportedElementAccessExpression
    (Some elementAccessExpression) None = outcome "undefined" /\
  CodeGenerationDiagnostic.unsupportedElementAccessExpression
    (Some elementAccessExpression) (Some "") = outcome "undefined" /\
  (forall text, text <> "" ->
   CodeGenerationDiagnostic.unsupportedElementAccessExpression
     (Some elementAccessExpression) (Some text) = outcome text).
Proof.
  intros outcome. split; [reflexivity|]. split; [reflexivity|].
  intros text H. destruct text as [|c text]; [contradiction|].
  unfold CodeGenerationDiagnostic.unsupportedElementAccessExpression,
    CodeGenerationDiagnostic.createException.
  rewrite new_spec. reflexivity.
Qed.

(** The four factories for an implicit cast take the expected type before
    the actual type and fill all three directives of their templates: the
    message names the actual type first and the expected type twice. *)
Theorem implicit_cast_messages (anchor : ts.Node) (expected actual : string) :
  CodeGenerationDiagnostic.unsupportedImplicitCast (Some anchor) expected actual =
  Return
    {| node := anchor; code := 1000024;
       message := "Unsupported implicit cast of value with the type '" ++ actual ++
                  "' to the expected type '" ++ expected ++
                  "'. An explicit cast of the value to the type '" ++ expected ++
                  "' is required." |} /\
  CodeGenerationDiagnostic.unsupportedImplicitCastOfArgument
    (Some anchor) expected actual =
  Return
    {| node := anchor; code := 1000020;
       message := "Unsupported implicit cast of the argument with the type '" ++
                  actual ++ "' to the expected parameter type '" ++ expected ++
                  "'. An explicit cast of the argument to the type '" ++ expected ++
                  "' is required." |} /\
  CodeGenerationDiagnostic.unsupportedImplicitCastOfConditionalResult
    (Some anchor) expected actual =
  Return
    {| node := anchor; code := 1000021;
       message := "Unsupported implicit cast of conditional case with type '" ++
                  actual ++ "' to the type '" ++ expected ++
                  "' of the whole conditional expression. An explicit cast of the conditional case to the type '" ++
                  expected ++ "' is required." |} /\
  CodeGenerationDiagnostic.unsupportedImplicitCastOfReturnValue
    (Some anchor) expected actual =
  Return
    {| node := anchor; code := 1000023;
       message := "Unsupported implicit cast of return value with the type '" ++
                  actual ++ "' to function's return type '" ++ expected ++
                  "'. An explicit cast of the return value to the expected return type '" ++
                  expected ++ "' is required." |}.
Proof.
  unfold CodeGenerationDiagnostic.unsupportedImplicitCast,
    CodeGenerationDiagnostic.unsupportedImplicitCastOfArgument,
    CodeGenerationDiagnostic.unsupportedImplicitCastOfConditionalResult,
    CodeGenerationDiagnostic.unsupportedImplicitCastOfReturnValue,
    CodeGenerationDiagnostic.createException.
  rewrite !new_spec. repeat split; vm_compute; reflexivity.
Qed.

(** The host record keeps everything of a diagnostic but the kind of its
    node: two diagnostics convert to the same record exactly when they
    have the same code and message and their nodes have the same span and
    source file. *)
Theorem toDiagnostic_same_record (d1 d2 : CodeGenerationDiagnostic) :
  CodeGenerationDiagnostic.toDiagnostic d1 =
  CodeGenerationDiagnostic.toDiagnostic d2 <->
  code d1 = code d2 /\ message d1 = message d2 /\
  ts.pos (node d1) = ts.pos (node d2) /\
  ts.end_ (node d1) = ts.end_ (node d2) /\
  ts.sourceFile (node d1) = ts.sourceFile (node d2).
Proof.
  unfold CodeGenerationDiagnostic.toDiagnostic, ts.getFullStart,
    ts.getFullWidth, ts.getSourceFile.
  split.
  - intros H. injection H as Hc Hm Hs Hl Hf.
    repeat split; trivial. lia.
  - intros (-> & -> & -> & -> & ->). reflexivity.
Qed.

End DiagnosticDetails.

(* ================================================================== *)
(** * The further properties on the sample inputs *)
Section FurtherInstances.

#[local] Existing Instance Sample.flags.
#[local] Existing Instance Sample.names.
#[local] Existing Instance Sample.collaborators.
#[local] Existing Instance Sample.operations.

Lemma toLLVMType_returns_witness :
  toLLVMType Sample.maybePoint Sample.context =
    Return (llvm.PointerTy (llvm.StructTy "class.Point" [llvm.Int32Ty])) /\
  (In (llvm.PointerTy (llvm.StructTy "class.Point" [llvm.Int32Ty]))
      [llvm.Int32Ty; llvm.DoubleTy; llvm.Int1Ty; llvm.VoidTy;
       llvm.PointerTy llvm.Int8Ty] \/
   exists n classReference,
     let type' := Nat.iter n ts.getNonNullableType Sample.maybePoint in
     hasFlag type' ts.TypeFlags.Object = true /\
     resolveClass Sample.context type' = Some classReference /\
     llvm.PointerTy (llvm.StructTy "class.Point" [llvm.Int32Ty]) =
     llvm.PointerTy (getLLVMType classReference type' Sample.context)).
Proof.
  assert (H : toLLVMType Sample.maybePoint Sample.context =
              Return (llvm.PointerTy (llvm.StructTy "class.Point" [llvm.Int32Ty])))
    by (vm_compute; reflexivity).
  split; [exact H|].
  exact (toLLVMType_returns Sample.maybePoint Sample.context H).
Defined.


Lemma toLLVMType_nullable_object_witness :
  toLLVMType Sample.maybePoint Sample.context =
  Return (llvm.PointerTy
            (getLLVMType ("class.Point" : @ClassReference Sample.collaborators)
               Sample.pointType Sample.context)).
Proof.
  refine (@toLLVMType_nullable_object _ _ _ Sample.maybePoint Sample.pointType
            Sample.undefinedType Sample.context "class.Point"
            eq_refl eq_refl eq_refl eq_refl eq_refl eq_refl _ eq_refl
            (or_introl eq_refl) eq_refl
            eq_refl eq_refl eq_refl eq_refl eq_refl eq_refl eq_refl eq_refl
            eq_refl).
  discriminate.
Defined.

Lemma toLLVMType_other_union_witness :
  isMaybeObjectType Sample.pointOrNull = false /\
  toLLVMType Sample.pointOrNull Sample.context =
  Throw (Error ("Unsupported type " ++
                typeToString (typeChecker Sample.context) Sample.pointOrNull)).
Proof.
  assert (H := @toLLVMType_other_union _ _ _ Sample.pointOrNull Sample.context
            eq_refl eq_refl eq_refl eq_refl eq_refl eq_refl).
  destruct H as (Hm & _ & H & _).
  - discriminate.
  - reflexivity.
  - right. left. intros t [<- | [<- | []]]; reflexivity.
  - split; [exact Hm|]. apply H. left. reflexivity.
Defined.

Lemma intrinsic_declaration_frame_witness :
  "llvm.sqrt.f64" <> "llvm.pow.f64" /\
  llvm.getFunction
    (snd (MathObjectReference.createPowFunction Sample.numberType
            Sample.mathType Sample.context)) "llvm.sqrt.f64" =
  llvm.getFunction (module Sample.context) "llvm.sqrt.f64".
Proof.
  assert (H : "llvm.sqrt.f64" <> "llvm.pow.f64") by discriminate.
  split; [exact H|].
  exact (proj2 (proj2 (proj1 (intrinsic_declaration_frame Sample.context)
                         Sample.numberType Sample.mathType))
           "llvm.sqrt.f64" H).
Defined.

Lemma createFunctionFor_intrinsics_compose_witness :
  exists reference1 module1 reference2 module2,
    MathObjectReference.createFunctionFor Sample.math (Sample.member "sqrt")
      [Sample.unary] Sample.propertyAccess Sample.context =
      Return (reference1, module1) /\
    MathObjectReference.createFunctionFor Sample.math (Sample.member "pow")
      [Sample.unary] Sample.propertyAccess
      (with_module Sample.context module1) = Return (reference2, module2) /\
    llvm.getFunction module2 "llvm.sqrt.f64" = Some (fn reference1) /\
    llvm.getFunction module2 "llvm.pow.f64" = Some (fn reference2) /\
    fn reference1 <> fn reference2 /\
    llvm.declaration module2 (fn reference1) =
    llvm.declaration module1 (fn reference1).
Proof.
  exact (createFunctionFor_intrinsics_compose Sample.math Sample.math
           (Sample.member "sqrt") (Sample.member "pow")
           Sample.unary Sample.unary Sample.propertyAccess Sample.propertyAccess
           Sample.context (or_intror (conj eq_refl eq_refl))).
Defined.

Lemma factory_with_node_witness :
  exists d,
    node d = Sample.node /\
    In (code d) (map template_code catalogue) /\
    (((forall declaration,
         Factory.unsupportedFunctionDeclaration (Some Sample.node) <>
         Factory.unsupportedFunctionDeclaration declaration) /\
      Factory.call (Factory.unsupportedFunctionDeclaration (Some Sample.node)) =
      Return d) \/
     ((exists declaration,
         Factory.unsupportedFunctionDeclaration (Some Sample.node) =
         Factory.unsupportedFunctionDeclaration declaration) /\
      Factory.call (Factory.unsupportedFunctionDeclaration (Some Sample.node)) =
      Throw (Diagnostic d))).
Proof.
  exact (@factory_with_node Sample.names
           (Factory.unsupportedFunctionDeclaration (Some Sample.node))
           Sample.node eq_refl).
Defined.

Lemma catalogue_codes_distinct_witness :
  nth 5 catalogue diagnostics.BuiltInMethodNotSupported =
  diagnostics.UnsupportedType.
Proof.
  apply (proj2 (proj2 catalogue_codes_distinct)).
  - simpl. tauto.
  - simpl. tauto.
  - reflexivity.
Defined.

Lemma constructor_assertion_order_witness :
  CodeGenerationDiagnostic.new (Some Sample.node) 100005 "" =
  Throw (AssertionError "message is not defined").
Proof.
  apply (constructor_assertion_order Sample.node 100005 "message"). discriminate.
Defined.

Lemma unsupportedElementAccessExpression_default_witness :
  CodeGenerationDiagnostic.unsupportedElementAccessExpression
    (Some Sample.node) (Some "string") =
  Return
    {| node := Sample.node; code := 1000022;
       message := "Unsupported element access expression with indexer of type 'string'. Only element access expressions with an integer index are supported." |}.
Proof.
  apply (unsupportedElementAccessExpression_default Sample.node). discriminate.
Defined.

Lemma toDiagnostic_same_record_witness :
  CodeGenerationDiagnostic.toDiagnostic
    {| node := Sample.node; code := 100005; message := "text" |} =
  CodeGenerationDiagnostic.toDiagnostic
    {| node := {| ts.kind := 71; ts.pos := 10; ts.end_ := 25;
                  ts.sourceFile := Sample.sourceFile |};
       code := 100005; message := "text" |}.
Proof.
  apply (toDiagnostic_same_record
           {| node := Sample.node; code := 100005; message := "text" |}
           {| node := {| ts.kind := 71; ts.pos := 10; ts.end_ := 25;
                         ts.sourceFile := Sample.sourceFile |};
              code := 100005; message := "text" |}).
  repeat split.
Defined.

End FurtherInstances.
